(** * The text-to-speech gateway of [src/index.ts]

    A shallow embedding of the [POST /api/tts] handler: the request body,
    the values exchanged with the providers, the handler's control flow
    (early [return], [throw] and the two [try]/[catch] blocks) and the
    reply the framework sends.  The process environment, the identity
    provider, the network and the runtime's base64 decoder are collected in
    a [Runtime] record that every definition takes as an argument. *)

From Stdlib Require Import String Ascii List Bool Arith ZArith Lia.
From Stdlib Require Import Floats.SpecFloat.
From Stdlib Require Import Strings.Byte.
From Stdlib Require Import Numbers.DecimalString Numbers.DecimalNat.
Import ListNotations.
Local Open Scope string_scope.
Local Open Scope list_scope.
Set Warnings "-register-all".

(* ===================================================================== *)
(** ** JavaScript values *)
(* ===================================================================== *)

Module Js.

(** A JavaScript [number] is a binary64 float; [spec_float] is the Standard
    Library's model of its values. *)
Definition number := spec_float.

Definition zero : number := S754_zero false.
Definition one : number := S754_finite false 4503599627370496 (-52).
Definition five : number := S754_finite false 5629499534213120 (-50).

(** [a === b] on numbers: IEEE equality ([NaN] differs from itself, the two
    zeros are equal). *)
Definition num_eq (a b : number) : bool := SFeqb a b.

(** The values a parsed JSON document or an object literal of the handler
    can hold.  [VUndef] is [undefined]; an object is the list of its own
    properties in insertion order. *)
Inductive Value : Type :=
| VUndef
| VNull
| VBool (b : bool)
| VNum (n : number)
| VStr (s : string)
| VArr (items : list Value)
| VObj (props : list (string * Value)).

(** ToBoolean. *)
Definition truthy (v : Value) : bool :=
  match v with
  | VUndef | VNull => false
  | VBool b => b
  | VNum n =>
      match n with
      | S754_zero _ | S754_nan => false
      | _ => true
      end
  | VStr s => negb (s =? "")
  | VArr _ | VObj _ => true
  end.

Definition truthy_str (s : string) : bool := negb (s =? "").

(** [!x] for an optional string: [undefined] and [""] are falsy. *)
Definition truthy_opt (o : option string) : bool :=
  match o with
  | Some s => truthy_str s
  | None => false
  end.

Definition of_opt_str (o : option string) : Value :=
  match o with
  | Some s => VStr s
  | None => VUndef
  end.

Definition of_opt_num (o : option number) : Value :=
  match o with
  | Some n => VNum n
  | None => VUndef
  end.

(** The default of a destructuring pattern, [{ x = d }]: it replaces
    [undefined] and nothing else. *)
Definition default_to (v d : Value) : Value :=
  match v with
  | VUndef => d
  | _ => v
  end.

Fixpoint lookup (k : string) (props : list (string * Value)) : Value :=
  match props with
  | [] => VUndef
  | (k', v) :: rest => if k' =? k then v else lookup k rest
  end.

Fixpoint has_key (k : string) (props : list (string * Value)) : bool :=
  match props with
  | [] => false
  | (k', _) :: rest => (k' =? k) || has_key k rest
  end.

(** [v.k] for one of the property names the handler reads (the eight
    names of the request, [error], [message], [audioContent]): [None] is
    the TypeError raised on [undefined] and [null]; primitives and arrays
    have no property of these names. *)
Definition get (v : Value) (k : string) : option Value :=
  match v with
  | VUndef | VNull => None
  | VObj props => Some (lookup k props)
  | _ => Some VUndef
  end.

(** [v?.k] *)
Definition get_opt (v : Value) (k : string) : Value :=
  match get v k with
  | Some x => x
  | None => VUndef
  end.

(** [a || b] *)
Definition or_else (a b : Value) : Value := if truthy a then a else b.

(** [s.includes(needle)] on strings. *)
Fixpoint includes (needle s : string) : bool :=
  if String.prefix needle s then true
  else match s with
       | EmptyString => false
       | String _ rest => includes needle rest
       end.

(** [a === VStr s] *)
Definition strict_eq_str (v : Value) (s : string) : bool :=
  match v with
  | VStr t => t =? s
  | _ => false
  end.

(** [v === n] for a number [n]. *)
Definition strict_eq_num (v : Value) (n : number) : bool :=
  match v with
  | VNum x => num_eq x n
  | _ => false
  end.

(** [v.includes(needle)] on a truthy value: the string method, the array
    method (strict equality with an element), and [None] for the TypeError
    of calling a property that is not a function. *)
Definition value_includes (v : Value) (needle : string) : option bool :=
  match v with
  | VStr s => Some (includes needle s)
  | VArr items => Some (existsb (fun x => strict_eq_str x needle) items)
  | _ => None
  end.

(** What [JSON.stringify] keeps of a value, as a document tree: properties
    holding [undefined] are dropped, [undefined] in an array becomes [null],
    and [undefined] itself gives no document.  Non-finite numbers become
    [null].  The rendering of the tree as text is left out. *)
Fixpoint stringify_tree (v : Value) : Value :=
  match v with
  | VArr items =>
      VArr ((fix go (l : list Value) : list Value :=
               match l with
               | [] => []
               | x :: r =>
                   (match x with
                    | VUndef => VNull
                    | _ => stringify_tree x
                    end) :: go r
               end) items)
  | VObj props =>
      VObj ((fix go (l : list (string * Value)) : list (string * Value) :=
               match l with
               | [] => []
               | (k, x) :: r =>
                   match x with
                   | VUndef => go r
                   | _ => (k, stringify_tree x) :: go r
                   end
               end) props)
  | VNum (S754_nan) | VNum (S754_infinity _) => VNull
  | _ => v
  end.

(** What [JSON.stringify] keeps of one property. *)
Definition field (k : string) (v : Value) : list (string * Value) :=
  match v with
  | VUndef => []
  | _ => [(k, stringify_tree v)]
  end.

(** The properties [JSON.stringify] keeps of an object. *)
Definition stringify_props (props : list (string * Value))
    : list (string * Value) :=
  match stringify_tree (VObj props) with
  | VObj kept => kept
  | _ => []
  end.

Definition JSON_stringify (v : Value) : option Value :=
  match v with
  | VUndef => None
  | _ => Some (stringify_tree v)
  end.

Fixpoint join (sep : string) (l : list string) : string :=
  match l with
  | [] => ""
  | [x] => x
  | x :: r => x ++ sep ++ join sep r
  end.

(** [String(v)], given the runtime's rendering of numbers. *)
Fixpoint to_string (num_str : number -> string) (v : Value) : string :=
  match v with
  | VUndef => "undefined"
  | VNull => "null"
  | VBool true => "true"
  | VBool false => "false"
  | VNum n => num_str n
  | VStr s => s
  | VArr items =>
      join ","
        ((fix go (l : list Value) : list string :=
            match l with
            | [] => []
            | x :: r =>
                (match x with
                 | VUndef | VNull => ""
                 | _ => to_string num_str x
                 end) :: go r
            end) items)
  | VObj _ => "[object Object]"
  end.

(** [n.toString()] for a byte length. *)
Definition nat_to_string (n : nat) : string :=
  NilEmpty.string_of_uint (Nat.to_uint n).

End Js.

(* ===================================================================== *)
(** ** The world around the handler *)
(* ===================================================================== *)

Import Js.

Definition Headers := list (string * string).

(** What a [catch] clause can tell about the value it receives: an [Error]
    with its message, or something that is not an [Error]. *)
Inductive Exn : Type :=
| ThrowError (message : string)
| ThrowOther.

(** [auth.getClient()] followed by [client.getAccessToken()]: a token that
    may be [null], [undefined] or empty, or a rejection. *)
Inductive AuthOutcome : Type :=
| TokenResolved (token : option string)
| TokenRejected (e : Exn).

(** The [Response] of [fetch]: [json] is what [response.json()] resolves
    to ([None] when the body is not JSON and the call rejects), [bytes]
    what [response.arrayBuffer()] resolves to. *)
Record ProviderResponse : Type := {
  ok : bool;
  json : option Value;
  bytes : list byte
}.

Inductive FetchOutcome : Type :=
| FetchResolved (r : ProviderResponse)
| FetchRejected (e : Exn).

Record Runtime : Type := {
  GOOGLE_TTS_API_KEY : option string;
  OPENAI_API_KEY : option string;
  getAccessToken : AuthOutcome;
  fetch : string -> Headers -> option Value -> FetchOutcome;
  (** [Buffer.from(s, "base64")] on a string never throws. *)
  Buffer_from_base64 : string -> list byte;
  (** [Buffer.from(v, "base64")] on a truthy value that is not a string;
      [None] is its TypeError. *)
  Buffer_from_other : Value -> option (list byte);
  Number_toString : number -> string
}.

(** The eight variables of the destructuring at lines 30-48, before their
    defaults: what the body holds under each name, [VUndef] for an absent
    property.  The types the handler declares for them are erased at run
    time, so each one can be any value. *)
Record TtsRequest : Type := {
  text : Value;
  apiMode : Value;
  languageCode : Value;
  modelName : Value;
  voiceName : Value;
  audioEncoding : Value;
  pitch : Value;
  speakingRate : Value
}.

(** [const { text, apiMode, ... } = body]: [None] is the TypeError of
    destructuring [undefined] or [null]; any other body is read property
    by property. *)
Definition destructure (body : Value) : option TtsRequest :=
  match body with
  | VUndef | VNull => None
  | _ =>
      Some {| text := get_opt body "text";
              apiMode := get_opt body "apiMode";
              languageCode := get_opt body "languageCode";
              modelName := get_opt body "modelName";
              voiceName := get_opt body "voiceName";
              audioEncoding := get_opt body "audioEncoding";
              pitch := get_opt body "pitch";
              speakingRate := get_opt body "speakingRate" |}
  end.

(** Calls that leave the process. *)
Inductive Event : Type :=
| EvGetAccessToken
| EvFetch (url : string) (headers : Headers) (body : option Value).

(** What the handler returns: an object literal or a [Response]. *)
Inductive Reply : Type :=
| ReplyObject (v : Value)
| ReplyResponse (headers : Headers) (body : list byte).

Inductive ResponseBody : Type :=
| JsonBody (v : Value)
| BinaryBody (data : list byte).

Record HttpResponse : Type := {
  status : nat;
  headers : Headers;
  body : ResponseBody
}.

(* ===================================================================== *)
(** ** Control flow: state, early return and exceptions *)
(* ===================================================================== *)

(** [set.status], [set.headers] and the calls made so far. *)
Record St : Type := {
  st_status : option nat;
  st_headers : Headers;
  st_trace : list Event
}.

Definition init_st : St :=
  {| st_status := None; st_headers := []; st_trace := [] |}.

Inductive Completion (A : Type) : Type :=
| Normal (a : A)
| Returned (r : Reply)
| Thrown (e : Exn).
Arguments Normal {A} a.
Arguments Returned {A} r.
Arguments Thrown {A} e.

Definition M (A : Type) : Type := St -> Completion A * St.

Definition ret {A} (a : A) : M A := fun s => (Normal a, s).

Definition bind {A B} (m : M A) (k : A -> M B) : M B :=
  fun s =>
    match m s with
    | (Normal a, s') => k a s'
    | (Returned r, s') => (Returned r, s')
    | (Thrown e, s') => (Thrown e, s')
    end.

Notation "x <- m ;; k" := (bind m (fun x => k))
  (at level 61, m at next level, right associativity).
Notation "m ;;; k" := (bind m (fun _ => k))
  (at level 61, right associativity).

Definition return_ {A} (r : Reply) : M A := fun s => (Returned r, s).
Definition throw {A} (e : Exn) : M A := fun s => (Thrown e, s).

(** [try { m } catch (error) { h error }]: a [return] inside [m] leaves the
    function, the state changes made before a [throw] stay. *)
Definition try_catch {A} (m : M A) (h : Exn -> M A) : M A :=
  fun s =>
    match m s with
    | (Thrown e, s') => h e s'
    | other => other
    end.

Definition set_status (n : nat) : M unit :=
  fun s => (Normal tt,
            {| st_status := Some n; st_headers := st_headers s;
               st_trace := st_trace s |}).

Fixpoint assign (k v : string) (h : Headers) : Headers :=
  match h with
  | [] => [(k, v)]
  | (k', v') :: r => if k' =? k then (k, v) :: r else (k', v') :: assign k v r
  end.

Definition set_header (k v : string) : M unit :=
  fun s => (Normal tt,
            {| st_status := st_status s; st_headers := assign k v (st_headers s);
               st_trace := st_trace s |}).

Definition emit (ev : Event) : M unit :=
  fun s => (Normal tt,
            {| st_status := st_status s; st_headers := st_headers s;
               st_trace := st_trace s ++ [ev] |}).

(** An optional result of a runtime operation, [None] being a TypeError or
    a SyntaxError. *)
Definition or_throw {A} (o : option A) (msg : string) : M A :=
  match o with
  | Some a => ret a
  | None => throw (ThrowError msg)
  end.

(* ===================================================================== *)
(** ** The handler of [POST /api/tts] *)
(* ===================================================================== *)

Definition default {A} (o : option A) (d : A) : A :=
  match o with
  | Some x => x
  | None => d
  end.

Definition error_object (msg : string) : Value := VObj [("error", VStr msg)].

(** The condition of lines 92-93 and 170-171 on a string. *)
Definition quota_check (errorMessage : string) : bool :=
  includes "quota" errorMessage || includes "Quota" errorMessage ||
  includes "requests_per_minute" errorMessage || includes "rate limit" errorMessage.

(** [a || b] where evaluating either side may throw. *)
Definition lazy_or (a b : option bool) : option bool :=
  match a with
  | Some true => Some true
  | Some false => b
  | None => None
  end.

(** The same condition on whatever [errorData.error?.message || ...] is. *)
Definition quota_check_value (errorMessage : Value) : option bool :=
  lazy_or (value_includes errorMessage "quota")
    (lazy_or (value_includes errorMessage "Quota")
       (lazy_or (value_includes errorMessage "requests_per_minute")
          (value_includes errorMessage "rate limit"))).

(** The condition of line 185. *)
Definition quota_check_openai (errorMessage : Value) : option bool :=
  lazy_or (value_includes errorMessage "quota")
    (value_includes errorMessage "rate limit").

Definition content_type_of (audioEncoding : Value) : string :=
  if strict_eq_str audioEncoding "LINEAR16" then "audio/wav" else "audio/mpeg".

Definition synthesize_url : string :=
  "https://texttospeech.googleapis.com/v1/text:synthesize".

Definition indonesianInstructions : string := "
            Speak in Bahasa Indonesia.
            Voice Affect: Calm, composed, and reassuring; project quiet authority and confidence.
            Tone: Announcer, sincere, empathetic, and gently authoritativeâ€”express genuine apology while conveying competence.
            Pacing: Steady and moderate; unhurried enough to communicate care, yet efficient enough to demonstrate professionalism.
            Emotion: Genuine empathy and understanding; speak with warmth
            Pronunciation: Clear and precise
            Pauses: Brief after commas, longer after period.
            ".

(** The request being assembled: [requestBody], [apiUrl], [headers]. *)
Record Outbound : Type := {
  requestBody : Value;
  apiUrl : string;
  out_headers : Headers
}.

Definition json_headers : Headers := [("Content-Type", "application/json")].

Section Handler.

Variable rt : Runtime.

Definition await_access_token : M (option string) :=
  emit EvGetAccessToken ;;;
  match getAccessToken rt with
  | TokenResolved token => ret token
  | TokenRejected e => throw e
  end.

Definition vertex_requestBody (text languageCode voiceName : Value) : Value :=
  VObj [("input", VObj [("text", text)]);
        ("voice", VObj [("languageCode", languageCode);
                        ("modelName", VStr "gemini-2.5-flash-tts");
                        ("name", voiceName)]);
        ("audioConfig", VObj [("audioEncoding", VStr "LINEAR16")])].

(** Lines 59-100. *)
Definition vertex_branch (text languageCode voiceName : Value) : M Outbound :=
  try_catch
    (token <- await_access_token ;;
     if negb (truthy_opt token) then
       set_status 500 ;;;
       return_ (ReplyObject (error_object "Failed to get service account access token"))
     else
       ret {| requestBody := vertex_requestBody text languageCode voiceName;
              apiUrl := synthesize_url;
              out_headers :=
                assign "Authorization" ("Bearer " ++ default token "") json_headers |})
    (fun error =>
       let errorMessage :=
         match error with
         | ThrowError message => message
         | ThrowOther => "Service account authentication failed"
         end in
       if quota_check errorMessage then
         set_status 429 ;;;
         return_ (ReplyObject (error_object "Limit exceeded per project per minute"))
       else
         set_status 500 ;;;
         return_ (ReplyObject (error_object "Service account authentication failed"))).

Definition standard_voice (languageCode voiceName modelName : Value)
    : list (string * Value) :=
  [("languageCode", languageCode)]
  ++ (if truthy voiceName then [("name", voiceName)] else [])
  ++ (if truthy modelName then [("modelName", modelName)] else []).

Definition standard_audioConfig (audioEncoding pitch speakingRate : Value)
    : list (string * Value) :=
  [("audioEncoding", audioEncoding)]
  ++ (if negb (strict_eq_num pitch zero) then [("pitch", pitch)] else [])
  ++ (if negb (strict_eq_num speakingRate one)
      then [("speakingRate", speakingRate)] else []).

Definition standard_requestBody
    (text languageCode voiceName modelName audioEncoding pitch speakingRate
     : Value) : Value :=
  VObj [("input", VObj [("text", text)]);
        ("voice", VObj (standard_voice languageCode voiceName modelName));
        ("audioConfig",
         VObj (standard_audioConfig audioEncoding pitch speakingRate))].

(** Lines 101-126. *)
Definition standard_branch
    (text languageCode voiceName modelName audioEncoding pitch speakingRate
     : Value) : M Outbound :=
  let requestBody :=
    standard_requestBody text languageCode voiceName modelName
      audioEncoding pitch speakingRate in
  if negb (truthy_opt (GOOGLE_TTS_API_KEY rt)) then
    set_status 500 ;;;
    return_ (ReplyObject (error_object "TTS API key not configured"))
  else
    ret {| requestBody := requestBody;
           apiUrl := synthesize_url ++ "?key=" ++ default (GOOGLE_TTS_API_KEY rt) "";
           out_headers := json_headers |}.

Definition openai_requestBody (text voiceName audioEncoding speakingRate : Value)
    : Value :=
  VObj [("model", VStr "gpt-4o-mini-tts");
        ("instructions", VStr indonesianInstructions);
        ("input", text);
        ("voice", voiceName);
        ("response_format",
         VStr (if strict_eq_str audioEncoding "LINEAR16" then "wav" else "mp3"));
        ("speed", speakingRate)].

(** Lines 127-157. *)
Definition openai_branch (text voiceName audioEncoding speakingRate : Value)
    : M Outbound :=
  if negb (truthy_opt (OPENAI_API_KEY rt)) then
    set_status 500 ;;;
    return_ (ReplyObject (error_object "OpenAI API key not configured"))
  else
    ret {| requestBody := openai_requestBody text voiceName audioEncoding speakingRate;
           apiUrl := "https://api.openai.com/v1/audio/speech";
           out_headers :=
             assign "Authorization" ("Bearer " ++ default (OPENAI_API_KEY rt) "")
               json_headers |}.

(** Lines 55-157: the dispatch on [apiMode]; with no branch taken the
    request body stays [undefined] and the URL empty. *)
Definition dispatch
    (text apiMode languageCode modelName voiceName audioEncoding pitch
     speakingRate : Value) : M Outbound :=
  if strict_eq_str apiMode "vertex" then
    vertex_branch text languageCode voiceName
  else if strict_eq_str apiMode "standard" then
    standard_branch text languageCode voiceName modelName audioEncoding
      pitch speakingRate
  else if strict_eq_str apiMode "openai" then
    openai_branch text voiceName audioEncoding speakingRate
  else ret {| requestBody := VUndef; apiUrl := ""; out_headers := json_headers |}.

(** Lines 159-163.  The runtime rejects a blank URL before anything is
    sent; any other call reaches the network. *)
Definition await_fetch (o : Outbound) : M ProviderResponse :=
  if apiUrl o =? "" then
    throw (ThrowError "fetch() URL must not be a blank string.")
  else
    let payload := JSON_stringify (requestBody o) in
    emit (EvFetch (apiUrl o) (out_headers o) payload) ;;;
    match fetch rt (apiUrl o) (out_headers o) payload with
    | FetchResolved r => ret r
    | FetchRejected e => throw e
    end.

Definition await_json (response : ProviderResponse) : M Value :=
  or_throw (json response) "Failed to parse JSON".

(** Lines 165-176. *)
Definition reject_not_ok {A} (response : ProviderResponse) : M A :=
  errorData <- await_json response ;;
  error <- or_throw (get errorData "error") "undefined is not an object" ;;
  let errorMessage :=
    or_else (get_opt error "message") (VStr "TTS API request failed") in
  quota <- or_throw (quota_check_value errorMessage)
             "errorMessage.includes is not a function" ;;
  if (quota : bool) then throw (ThrowError "Limit exceeded per project per minute")
  else throw (ThrowError (to_string (Number_toString rt) errorMessage)).

(** Lines 180-190, inside the [openai] branch. *)
Definition reject_not_ok_openai {A} (response : ProviderResponse) : M A :=
  errorData <- await_json response ;;
  error <- or_throw (get errorData "error") "undefined is not an object" ;;
  let errorMessage :=
    or_else (get_opt error "message") (VStr "OpenAI TTS API request failed") in
  quota <- or_throw (quota_check_openai errorMessage)
             "errorMessage.includes is not a function" ;;
  if (quota : bool) then throw (ThrowError "Limit exceeded per project per minute")
  else throw (ThrowError (to_string (Number_toString rt) errorMessage)).

(** [new Response(audioBuffer, { headers })] after both [set.headers]
    assignments. *)
Definition reply_audio (contentType : string) (audioBuffer : list byte) : M Reply :=
  let len := nat_to_string (List.length audioBuffer) in
  set_header "Content-Type" contentType ;;;
  set_header "Content-Length" len ;;;
  return_ (ReplyResponse [("Content-Type", contentType); ("Content-Length", len)]
             audioBuffer).

(** [Buffer.from(data.audioContent, "base64")] *)
Definition Buffer_from (v : Value) : M (list byte) :=
  match v with
  | VStr s => ret (Buffer_from_base64 rt s)
  | _ => or_throw (Buffer_from_other rt v)
           "The first argument must be of type string or an instance of Buffer"
  end.

(** Lines 178-228. *)
Definition deliver (apiMode audioEncoding : Value)
    (response : ProviderResponse) : M Reply :=
  if strict_eq_str apiMode "openai" then
    (if negb (ok response) then reject_not_ok_openai response else ret tt) ;;;
    let audioBuffer := bytes response in
    reply_audio (content_type_of audioEncoding) audioBuffer
  else
    data <- await_json response ;;
    audioContent <- or_throw (get data "audioContent") "null is not an object" ;;
    if negb (truthy audioContent) then
      set_status 500 ;;;
      return_ (ReplyObject (error_object "Failed to generate audio"))
    else
      audioBuffer <- Buffer_from audioContent ;;
      reply_audio (content_type_of audioEncoding) audioBuffer.

(** Lines 165-228: what is done with the provider's response. *)
Definition answer (apiMode audioEncoding : Value)
    (response : ProviderResponse) : M Reply :=
  (if negb (ok response) then reject_not_ok response else ret tt) ;;;
  deliver apiMode audioEncoding response.

(** Lines 30-228 once the body has been destructured into [req]: the
    defaults, the check of [text], the dispatch, the call and the answer. *)
Definition synthesize (req : TtsRequest) : M Reply :=
  let text := text req in
  let apiMode := default_to (apiMode req) (VStr "standard") in
  let languageCode := default_to (languageCode req) (VStr "id-ID") in
  let audioEncoding := default_to (audioEncoding req) (VStr "MP3") in
  let pitch := default_to (pitch req) (VNum zero) in
  let speakingRate := default_to (speakingRate req) (VNum one) in
  if negb (truthy text) then
    set_status 400 ;;;
    return_ (ReplyObject (error_object "Text is required"))
  else
    o <- dispatch text apiMode languageCode (modelName req) (voiceName req)
           audioEncoding pitch speakingRate ;;
    response <- await_fetch o ;;
    answer apiMode audioEncoding response.

(** Lines 229-233: the outer [catch]. *)
Definition internal_error (error : Exn) : M Reply :=
  set_status 500 ;;;
  return_ (ReplyObject (error_object "Internal server error")).

(** Lines 28-234: the destructuring of the body is inside the [try], so
    its TypeError is caught like any other exception. *)
Definition handler (body : Value) : M Reply :=
  try_catch
    (req <- or_throw (destructure body)
              "Cannot destructure property 'text' of 'body'" ;;
     synthesize req)
    internal_error.

(** The handler from line 50 on, for a body that destructured into [req]. *)
Definition handler_after (req : TtsRequest) : M Reply :=
  try_catch (synthesize req) internal_error.

(** The framework's part: an object becomes a JSON body sent with
    [set.status] and [set.headers]; a [Response] is sent as it is, with the
    status 200 it was built with unless [set.status] was assigned.  An
    exception that escaped the handler would be a 500 of the framework. *)
Definition send (c : Completion Reply) (s : St) : HttpResponse :=
  match c with
  | Normal (ReplyObject v) | Returned (ReplyObject v) =>
      {| status := default (st_status s) 200; headers := st_headers s;
         body := JsonBody v |}
  | Normal (ReplyResponse h b) | Returned (ReplyResponse h b) =>
      {| status := default (st_status s) 200; headers := h;
         body := BinaryBody b |}
  | Thrown _ =>
      {| status := 500; headers := []; body := JsonBody VUndef |}
  end.

(** One request with the body [body]: the response sent and the calls
    made, in order. *)
Definition serve_body (body : Value) : HttpResponse * list Event :=
  let (c, s) := handler body init_st in (send c s, st_trace s).

(** The same for a body that destructured into [req]. *)
Definition serve (req : TtsRequest) : HttpResponse * list Event :=
  let (c, s) := handler_after req init_st in (send c s, st_trace s).

Definition response_of (req : TtsRequest) : HttpResponse := fst (serve req).
Definition calls_of (req : TtsRequest) : list Event := snd (serve req).

End Handler.

(* ===================================================================== *)
(** ** A concrete runtime for running the handler *)
(* ===================================================================== *)

Module Demo.

(** The value of a character in the base64 alphabets the runtime accepts. *)
Definition sextet_of (c : ascii) : option nat :=
  let n := nat_of_ascii c in
  if ((65 <=? n) && (n <=? 90))%nat then Some (n - 65)
  else if ((97 <=? n) && (n <=? 122))%nat then Some (n - 71)
  else if ((48 <=? n) && (n <=? 57))%nat then Some (n + 4)
  else if ((n =? 43) || (n =? 45))%nat then Some 62
  else if ((n =? 47) || (n =? 95))%nat then Some 63
  else None.

Fixpoint sextets (s : string) : list nat :=
  match s with
  | EmptyString => []
  | String c r =>
      match sextet_of c with
      | Some v => v :: sextets r
      | None => if Ascii.eqb c "=" then [] else sextets r
      end
  end.

Definition octet (n : nat) : byte :=
  match Byte.of_nat (n mod 256) with
  | Some b => b
  | None => x00
  end.

Fixpoint octets (l : list nat) : list byte :=
  match l with
  | a :: b :: c :: d :: r =>
      octet (a * 4 + b / 16) :: octet (b * 16 + c / 4) :: octet (c * 64 + d)
      :: octets r
  | [a; b; c] => [octet (a * 4 + b / 16); octet (b * 16 + c / 4)]
  | [a; b] => [octet (a * 4 + b / 16)]
  | _ => []
  end.

(** A base64 decoder for the examples, whose inputs are ASCII. *)
Definition base64_decode (s : string) : list byte := octets (sextets s).

Definition provider_error (message : string) : ProviderResponse :=
  {| ok := false;
     json := Some (VObj [("error", VObj [("code", VNum five);
                                         ("message", VStr message)])]);
     bytes := [] |}.

Definition provider_audio (audioContent : Value) : ProviderResponse :=
  {| ok := true;
     json := Some (VObj [("audioContent", audioContent)]);
     bytes := [] |}.

Definition provider_raw (data : list byte) : ProviderResponse :=
  {| ok := true; json := None; bytes := data |}.

(** Both keys configured, a token granted, and one fixed answer from the
    providers. *)
Definition answering (r : ProviderResponse) : Runtime :=
  {| GOOGLE_TTS_API_KEY := Some "g-key";
     OPENAI_API_KEY := Some "o-key";
     getAccessToken := TokenResolved (Some "ya29.token");
     fetch := fun _ _ _ => FetchResolved r;
     Buffer_from_base64 := base64_decode;
     Buffer_from_other := fun _ => None;
     Number_toString := fun _ => "0" |}.

(** No key configured and an identity provider that fails with [e]. *)
Definition unconfigured (e : Exn) : Runtime :=
  {| GOOGLE_TTS_API_KEY := None;
     OPENAI_API_KEY := Some "";
     getAccessToken := TokenRejected e;
     fetch := fun _ _ _ => FetchRejected ThrowOther;
     Buffer_from_base64 := base64_decode;
     Buffer_from_other := fun _ => None;
     Number_toString := fun _ => "0" |}.

(** An identity provider that resolves with an empty token. *)
Definition tokenless : Runtime :=
  {| GOOGLE_TTS_API_KEY := Some "g-key";
     OPENAI_API_KEY := None;
     getAccessToken := TokenResolved (Some "");
     fetch := fun _ _ _ => FetchRejected ThrowOther;
     Buffer_from_base64 := base64_decode;
     Buffer_from_other := fun _ => None;
     Number_toString := fun _ => "0" |}.

(** Keys and token as in [answering], and a network that fails. *)
Definition offline : Runtime :=
  {| GOOGLE_TTS_API_KEY := Some "g-key";
     OPENAI_API_KEY := Some "o-key";
     getAccessToken := TokenResolved (Some "ya29.token");
     fetch := fun _ _ _ => FetchRejected (ThrowError "ECONNREFUSED");
     Buffer_from_base64 := base64_decode;
     Buffer_from_other := fun _ => None;
     Number_toString := fun _ => "0" |}.

Definition say (text : option string) (apiMode : option string) : TtsRequest :=
  {| text := of_opt_str text; apiMode := of_opt_str apiMode;
     languageCode := VUndef; modelName := VUndef; voiceName := VUndef;
     audioEncoding := VUndef; pitch := VUndef; speakingRate := VUndef |}.

Definition say_as (apiMode audioEncoding : option string) : TtsRequest :=
  {| text := VStr "halo"; apiMode := of_opt_str apiMode;
     languageCode := VUndef; modelName := VUndef; voiceName := VStr "Kore";
     audioEncoding := of_opt_str audioEncoding;
     pitch := VUndef; speakingRate := VUndef |}.

Definition tuned (pitch speakingRate : option number) : TtsRequest :=
  {| text := VStr "halo"; apiMode := VStr "standard";
     languageCode := VUndef; modelName := VUndef; voiceName := VUndef;
     audioEncoding := VUndef;
     pitch := of_opt_num pitch; speakingRate := of_opt_num speakingRate |}.


End Demo.

(* ===================================================================== *)
(** ** Vocabulary of the statements *)
(* ===================================================================== *)

(** [needle] occurs in [s]. *)
Definition occurs_in (needle s : string) : Prop :=
  exists before after, s = (before ++ needle ++ after)%string.

(** ASCII lower-casing, the folding under which the three needles of the
    specification are compared. *)
Definition lower_char (c : ascii) : ascii :=
  let n := nat_of_ascii c in
  if ((65 <=? n) && (n <=? 90))%nat then ascii_of_nat (n + 32) else c.

Fixpoint lower (s : string) : string :=
  match s with
  | EmptyString => EmptyString
  | String c r => String (lower_char c) (lower r)
  end.

(** [needle] occurs in [s] in some letter casing. *)
Definition occurs_any_case (needle s : string) : Prop :=
  occurs_in (lower needle) (lower s).

Definition occurs_any_caseb (needle s : string) : bool :=
  includes (lower needle) (lower s).

Definition header (k : string) (h : Headers) : option string :=
  match find (fun kv => fst kv =? k) h with
  | Some kv => Some (snd kv)
  | None => None
  end.

(** A decimal header value read back as a number. *)
Definition parse_nat (s : string) : option nat :=
  option_map Nat.of_uint (NilEmpty.uint_of_string s).

Definition content_length (r : HttpResponse) : option nat :=
  match header "Content-Length" (headers r) with
  | Some v => parse_nat v
  | None => None
  end.

Definition error_response (code : nat) (msg : string) : HttpResponse :=
  {| status := code; headers := []; body := JsonBody (error_object msg) |}.

Definition is_fetch (ev : Event) : bool :=
  match ev with
  | EvFetch _ _ _ => true
  | EvGetAccessToken => false
  end.

Ltac unfold_handler :=
  unfold response_of, calls_of, serve, handler_after, synthesize,
    internal_error, try_catch, bind;
  cbv zeta.

Definition with_status (n : nat) (s : St) : St :=
  {| st_status := Some n; st_headers := st_headers s; st_trace := st_trace s |}.

Definition audio_headers (contentType : string) (data : list byte) : Headers :=
  [("Content-Type", contentType);
   ("Content-Length", nat_to_string (List.length data))].

(** The rest of a request once the provider has answered. *)
Definition finish (rt : Runtime) (req : TtsRequest)
    (response : ProviderResponse) (s : St) : HttpResponse * list Event :=
  let (c, s') :=
    try_catch (answer rt (default_to (apiMode req) (VStr "standard"))
                 (default_to (audioEncoding req) (VStr "MP3")) response)
      internal_error s in
  (send c s', st_trace s').

Definition audio_response (contentType : string) (data : list byte)
    : HttpResponse :=
  {| status := 200; headers := audio_headers contentType data;
     body := BinaryBody data |}.

Definition pristine (s : St) : Prop :=
  st_status s = None /\ st_headers s = [].

(** The number zero, of either sign. *)
Definition is_zero (v : Value) : Prop := exists sign, v = VNum (S754_zero sign).

(** The payload of a standard request: one call, whose [audioConfig] lists
    [pitch] and [speakingRate] only when they differ from 0 and 1. *)
Definition sends_tuned (rt : Runtime) (req : TtsRequest) : Prop :=
  let p := default_to (pitch req) (VNum zero) in
  let r := default_to (speakingRate req) (VNum one) in
  exists url input voice audioConfig,
    calls_of rt req
    = [EvFetch url json_headers
         (Some (VObj [("input", input); ("voice", voice);
                      ("audioConfig", VObj audioConfig)]))]
    /\ (has_key "pitch" audioConfig = true <-> ~ is_zero p)
    /\ (has_key "speakingRate" audioConfig = true <-> r <> VNum one)
    /\ (~ is_zero p -> lookup "pitch" audioConfig = stringify_tree p)
    /\ (r <> VNum one ->
        lookup "speakingRate" audioConfig = stringify_tree r)
    /\ (is_zero p -> r = VNum one ->
        audioConfig
        = [("audioEncoding",
            stringify_tree (default_to (audioEncoding req) (VStr "MP3")))]).

(** The calls of a vertex request that obtained a token: the token, then
    one synthesis call whose [audioConfig] asks for LINEAR16. *)
Definition asks_linear16 (rt : Runtime) (req : TtsRequest) : Prop :=
  exists h input voice,
    calls_of rt req
    = [EvGetAccessToken;
       EvFetch synthesize_url h
         (Some (VObj [("input", input); ("voice", voice);
                      ("audioConfig",
                       VObj [("audioEncoding", VStr "LINEAR16")])]))].

(** The message lines 166-167 extract from a response that is not [ok]. *)
Definition reported (response : ProviderResponse) (errorMessage : Value) : Prop :=
  exists errorData error,
    json response = Some errorData /\
    get errorData "error" = Some error /\
    errorMessage = or_else (get_opt error "message") (VStr "TTS API request failed").

Definition quota_message : string := "Quota exceeded for requests_per_minute".

Definition voice_message : string := "Voice 'xx-XX-Nope' does not exist.".

(** [error instanceof Error ? error.message : "..."] of line 89. *)
Definition message_of (error : Exn) : string :=
  match error with
  | ThrowError message => message
  | ThrowOther => "Service account authentication failed"
  end.

(** The dispatch as [synthesize] runs it for a request. *)
Definition dispatch_of (rt : Runtime) (req : TtsRequest) : M Outbound :=
  dispatch rt (text req) (default_to (apiMode req) (VStr "standard"))
    (default_to (languageCode req) (VStr "id-ID")) (modelName req)
    (voiceName req) (default_to (audioEncoding req) (VStr "MP3"))
    (default_to (pitch req) (VNum zero))
    (default_to (speakingRate req) (VNum one)).

(** The call [fetch] receives for an assembled request. *)
Definition call_of (o : Outbound) : Event :=
  EvFetch (apiUrl o) (out_headers o) (JSON_stringify (requestBody o)).

(** The three requests the adapters assemble. *)
Definition standard_outbound (rt : Runtime) (req : TtsRequest) : Outbound :=
  {| requestBody :=
       standard_requestBody (text req)
         (default_to (languageCode req) (VStr "id-ID")) (voiceName req)
         (modelName req) (default_to (audioEncoding req) (VStr "MP3"))
         (default_to (pitch req) (VNum zero))
         (default_to (speakingRate req) (VNum one));
     apiUrl := (synthesize_url ++ "?key="
                ++ default (GOOGLE_TTS_API_KEY rt) "")%string;
     out_headers := json_headers |}.

Definition vertex_outbound (req : TtsRequest) (token : string) : Outbound :=
  {| requestBody :=
       vertex_requestBody (text req)
         (default_to (languageCode req) (VStr "id-ID")) (voiceName req);
     apiUrl := synthesize_url;
     out_headers :=
       [("Content-Type", "application/json");
        ("Authorization", ("Bearer " ++ token)%string)] |}.

Definition openai_outbound (rt : Runtime) (req : TtsRequest) : Outbound :=
  {| requestBody :=
       openai_requestBody (text req) (voiceName req)
         (default_to (audioEncoding req) (VStr "MP3"))
         (default_to (speakingRate req) (VNum one));
     apiUrl := "https://api.openai.com/v1/audio/speech";
     out_headers :=
       [("Content-Type", "application/json");
        ("Authorization",
         ("Bearer " ++ default (OPENAI_API_KEY rt) "")%string)] |}.

(** What becomes of an assembled request once [fetch] is called, after
    the calls [t]. *)
Definition sent (rt : Runtime) (req : TtsRequest) (t : list Event)
    (o : Outbound) : HttpResponse * list Event :=
  match fetch rt (apiUrl o) (out_headers o) (JSON_stringify (requestBody o)) with
  | FetchResolved response =>
      finish rt req response
        {| st_status := None; st_headers := [];
           st_trace := t ++ [call_of o] |}
  | FetchRejected _ =>
      (error_response 500 "Internal server error", t ++ [call_of o])
  end.

(** The statuses and messages of the error replies the handler writes. *)
Definition fixed_errors : list (nat * string) :=
  [(400, "Text is required");
   (500, "Failed to get service account access token");
   (429, "Limit exceeded per project per minute");
   (500, "Service account authentication failed");
   (500, "TTS API key not configured");
   (500, "OpenAI API key not configured");
   (500, "Failed to generate audio");
   (500, "Internal server error")].

(** The state once the token has been asked for. *)
Definition token_asked : St :=
  {| st_status := None; st_headers := []; st_trace := [EvGetAccessToken] |}.

(* ===================================================================== *)
(** ** Substrings *)
(* ===================================================================== *)

Section Substrings.

Lemma prefix_split (p s : string) :
  String.prefix p s = true <-> exists after, s = (p ++ after)%string.
Proof.
  revert s; induction p as [|c p IH]; intros s.
  - split; [intros _; now exists s | intros _; now destruct s].
  - destruct s as [|d s]; simpl.
    + split; [discriminate | intros [after H]; discriminate].
    + destruct (ascii_dec c d) as [->|Hne].
      * rewrite IH. split; intros [after H]; exists after.
        -- now rewrite H.
        -- now injection H.
      * split; [discriminate |].
        intros [after H]. injection H as H1 _. now elim Hne.
Qed.

Lemma includes_unfold (needle s : string) :
  includes needle s =
  String.prefix needle s ||
  match s with
  | EmptyString => false
  | String _ rest => includes needle rest
  end.
Proof.
  destruct s; cbn [includes];
    match goal with |- context [String.prefix ?a ?b] =>
      destruct (String.prefix a b) end; reflexivity.
Qed.

Lemma includes_occurs (needle s : string) :
  includes needle s = true <-> occurs_in needle s.
Proof.
  induction s as [|c s IH];
    rewrite includes_unfold, orb_true_iff, prefix_split.
  - split.
    + intros [[after H] | H]; [now exists "", after | discriminate].
    + intros [before [after H]]. left.
      destruct before; [now exists after | discriminate].
  - rewrite IH. split.
    + intros [[after H] | [before [after H]]].
      * now exists "", after.
      * exists (String c before), after. simpl. now rewrite H.
    + intros [before [after H]].
      destruct before as [|d before]; simpl in H.
      * left. now exists after.
      * right. injection H as _ H. now exists before, after.
Qed.

Lemma lower_app (a b : string) :
  lower (a ++ b) = (lower a ++ lower b)%string.
Proof. induction a as [|c a IH]; simpl; [reflexivity | now rewrite IH]. Qed.

Lemma occurs_in_lower (needle s : string) :
  occurs_in needle s -> occurs_in (lower needle) (lower s).
Proof.
  intros [before [after ->]]. exists (lower before), (lower after).
  now rewrite !lower_app.
Qed.

Lemma occurs_any_caseb_spec (needle s : string) :
  occurs_any_caseb needle s = true <-> occurs_any_case needle s.
Proof. apply includes_occurs. Qed.

End Substrings.

(* ===================================================================== *)
(** ** Quota classification *)
(* ===================================================================== *)

Lemma quota_check_occurs (m : string) :
  quota_check m = true <->
  occurs_in "quota" m \/ occurs_in "Quota" m \/
  occurs_in "requests_per_minute" m \/ occurs_in "rate limit" m.
Proof.
  unfold quota_check. rewrite !orb_true_iff, !includes_occurs. tauto.
Qed.

Lemma quota_check_any_case (m : string) :
  quota_check m = true ->
  occurs_any_case "quota" m \/ occurs_any_case "requests_per_minute" m \/
  occurs_any_case "rate limit" m.
Proof.
  rewrite quota_check_occurs.
  intros [H | [H | [H | H]]]; apply occurs_in_lower in H; auto.
Qed.

(* ===================================================================== *)
(** ** Running the handler *)
(* ===================================================================== *)

Lemma truthy_opt_false (o : option string) :
  truthy_opt o = false <-> o = None \/ o = Some "".
Proof.
  destruct o as [s|]; simpl; unfold truthy_str.
  - split.
    + intros H. right. destruct (s =? "") eqn:E; [| discriminate].
      apply String.eqb_eq in E. now subst.
    + intros [H | H]; [discriminate | now injection H as ->].
  - split; auto.
Qed.

Section Values.

Lemma strict_eq_str_spec (v : Value) (s : string) :
  strict_eq_str v s = true <-> v = VStr s.
Proof.
  destruct v; cbn; try (split; discriminate).
  rewrite String.eqb_eq. split; [now intros -> | now intros [= ->]].
Qed.

Lemma strict_eq_str_neq (v : Value) (s : string) :
  v <> VStr s -> strict_eq_str v s = false.
Proof.
  intros H. destruct (strict_eq_str v s) eqn:E; [| reflexivity].
  now apply strict_eq_str_spec in E.
Qed.

Lemma default_to_given (v d : Value) : v <> VUndef -> default_to v d = v.
Proof. destruct v; intros H; [now elim H | reflexivity ..]. Qed.

Lemma default_to_defined (v d : Value) :
  d <> VUndef -> default_to v d <> VUndef.
Proof. destruct v; cbn; intros H; try discriminate. exact H. Qed.

Lemma truthy_defined (v : Value) : truthy v = true -> v <> VUndef.
Proof. intros H ->. discriminate. Qed.


Lemma stringify_tree_obj (props : list (string * Value)) :
  stringify_tree (VObj props) = VObj (stringify_props props).
Proof. reflexivity. Qed.

Lemma stringify_props_nil : stringify_props [] = [].
Proof. reflexivity. Qed.

Lemma stringify_props_cons (k : string) (v : Value)
    (rest : list (string * Value)) :
  stringify_props ((k, v) :: rest) = field k v ++ stringify_props rest.
Proof. destruct v; reflexivity. Qed.

Lemma field_defined (k : string) (v : Value) :
  v <> VUndef -> field k v = [(k, stringify_tree v)].
Proof. destruct v; intros H; [now elim H | reflexivity ..]. Qed.

End Values.

Section Destructuring.

Variable rt : Runtime.

Lemma destructure_object (body : Value) :
  body <> VUndef -> body <> VNull ->
  exists req,
    destructure body = Some req
    /\ text req = get_opt body "text"
    /\ apiMode req = get_opt body "apiMode".
Proof.
  intros Hu Hn.
  destruct body; try (now elim Hu); try (now elim Hn);
    eexists; (split; [reflexivity | split; reflexivity]).
Qed.

(** The handler on a body that can be destructured is the handler from
    line 50 on, run on the eight variables. *)
Lemma serve_body_destructured (body : Value) (req : TtsRequest) :
  destructure body = Some req -> serve_body rt body = serve rt req.
Proof.
  intros E. unfold serve_body, serve, handler, handler_after, try_catch, bind.
  rewrite E. reflexivity.
Qed.

(** On [undefined] and [null] the destructuring throws into the outer
    [catch]. *)
Lemma serve_body_undestructurable (body : Value) :
  destructure body = None ->
  serve_body rt body = (error_response 500 "Internal server error", []).
Proof.
  intros E. unfold serve_body, handler, try_catch, bind. now rewrite E.
Qed.

Lemma serve_no_text (req : TtsRequest) :
  truthy (text req) = false ->
  serve rt req = (error_response 400 "Text is required", []).
Proof. intros H. unfold_handler. now rewrite H. Qed.

End Destructuring.




(** C5: with a non-empty [text], the standard adapter without its key
    answers 500 [{"error":"TTS API key not configured"}] and the openai
    adapter without its key answers 500
    [{"error":"OpenAI API key not configured"}]; nothing is called in
    either case. *)
Theorem missing_key_is_500 (rt : Runtime) (req : TtsRequest) :
  truthy (text req) = true ->
  (default_to (apiMode req) (VStr "standard") = VStr "standard" ->
   truthy_opt (GOOGLE_TTS_API_KEY rt) = false ->
   serve rt req = (error_response 500 "TTS API key not configured", []))
  /\
  (apiMode req = VStr "openai" ->
   truthy_opt (OPENAI_API_KEY rt) = false ->
   serve rt req = (error_response 500 "OpenAI API key not configured", [])).
Proof.
  intros Ht. split; intros Hm Hk; unfold_handler; rewrite Ht, Hm;
    unfold dispatch;
    cbn [default_to strict_eq_str String.eqb Ascii.eqb Bool.eqb negb];
    [unfold standard_branch | unfold openai_branch];
    rewrite Hk; reflexivity.
Qed.

Lemma missing_key_is_500_witness :
  serve (Demo.unconfigured ThrowOther) (Demo.say (Some "halo") None)
  = (error_response 500 "TTS API key not configured", [])
  /\
  serve (Demo.unconfigured ThrowOther) (Demo.say (Some "halo") (Some "openai"))
  = (error_response 500 "OpenAI API key not configured", []).
Proof.
  split.
  - apply (missing_key_is_500 (Demo.unconfigured ThrowOther)
             (Demo.say (Some "halo") None)); reflexivity.
  - apply (missing_key_is_500 (Demo.unconfigured ThrowOther)
             (Demo.say (Some "halo") (Some "openai"))); reflexivity.
Defined.

(** C10: with a non-empty [text] and an [apiMode] that is none of
    ["vertex"], ["standard"], ["openai"], the dispatch builds no request
    body and leaves the URL empty, nothing is called, and the reply is 500
    [{"error":"Internal server error"}], not the 400 of a validation
    error. *)
Theorem unknown_mode_is_500 (rt : Runtime) (req : TtsRequest) :
  truthy (text req) = true ->
  apiMode req <> VUndef ->
  apiMode req <> VStr "vertex" ->
  apiMode req <> VStr "standard" ->
  apiMode req <> VStr "openai" ->
  (forall text languageCode modelName voiceName audioEncoding pitch speakingRate,
      dispatch rt text (apiMode req) languageCode modelName voiceName
        audioEncoding pitch speakingRate
      = ret {| requestBody := VUndef; apiUrl := ""; out_headers := json_headers |})
  /\ JSON_stringify VUndef = None
  /\ serve rt req = (error_response 500 "Internal server error", [])
  /\ status (response_of rt req) <> 400.
Proof.
  intros Ht Hm Hv Hs Ho.
  apply strict_eq_str_neq in Hv, Hs, Ho.
  assert (serve rt req = (error_response 500 "Internal server error", [])) as E.
  { unfold_handler. rewrite Ht, (default_to_given _ _ Hm). unfold dispatch.
    cbn [negb]. rewrite Hv, Hs, Ho. reflexivity. }
  repeat split.
  - intros. unfold dispatch. now rewrite Hv, Hs, Ho.
  - exact E.
  - unfold response_of. rewrite E. simpl. discriminate.
Qed.

Lemma unknown_mode_is_500_witness :
  serve (Demo.answering (Demo.provider_raw [])) (Demo.say (Some "halo") (Some "azure"))
  = (error_response 500 "Internal server error", []).
Proof.
  apply (unknown_mode_is_500 (Demo.answering (Demo.provider_raw []))
           (Demo.say (Some "halo") (Some "azure")));
    solve [reflexivity | discriminate].
Defined.

Section Stages.

Variable rt : Runtime.

Lemma reject_not_ok_throws {A} (response : ProviderResponse) (s : St) :
  exists e, @reject_not_ok rt A response s = (Thrown e, s).
Proof.
  unfold reject_not_ok, await_json, or_throw, bind, throw, ret.
  destruct (json response) as [errorData|]; [| eauto].
  destruct (get errorData "error") as [error|]; [| eauto].
  destruct (quota_check_value _) as [[|]|]; eauto.
Qed.

Lemma Buffer_from_cases (v : Value) (s : St) :
  (exists data, Buffer_from rt v s = (Normal data, s)) \/
  (exists e, Buffer_from rt v s = (Thrown e, s)).
Proof.
  unfold Buffer_from, or_throw, ret, throw.
  destruct v; try (destruct (Buffer_from_other rt _)); eauto.
Qed.

(** What [deliver] can do with a response whose [ok] is set, started
    before any header was assigned. *)
Lemma deliver_ok (apiMode audioEncoding : Value) (response : ProviderResponse)
    (s : St) :
  ok response = true ->
  st_headers s = [] ->
  (exists e, deliver rt apiMode audioEncoding response s = (Thrown e, s)) \/
  deliver rt apiMode audioEncoding response s
  = (Returned (ReplyObject (error_object "Failed to generate audio")),
     with_status 500 s) \/
  (exists data s',
      deliver rt apiMode audioEncoding response s
      = (Returned (ReplyResponse
                     (audio_headers (content_type_of audioEncoding) data) data), s')
      /\ st_status s' = st_status s /\ st_trace s' = st_trace s).
Proof.
  intros Hok Hh. unfold deliver.
  destruct (strict_eq_str apiMode "openai").
  - right; right. rewrite Hok. exists (bytes response). eexists.
    cbn. split; [reflexivity | split; reflexivity].
  - unfold await_json, or_throw, bind, throw, ret.
    destruct (json response) as [data|]; [| eauto].
    destruct (get data "audioContent") as [audioContent|]; [| eauto].
    destruct (truthy audioContent) eqn:Etr; cbn [negb].
    + destruct (Buffer_from_cases audioContent s) as [[d E] | [e E]];
        rewrite E.
      * right; right. exists d. eexists. cbn.
        split; [reflexivity | split; reflexivity].
      * left. eauto.
    + right; left. reflexivity.
Qed.

Lemma no_fetch_in (t : list Event) (url : string) (h : Headers)
    (p : option Value) :
  forallb (fun ev => negb (is_fetch ev)) t = true -> ~ In (EvFetch url h p) t.
Proof.
  intros H Hin. rewrite forallb_forall in H. now apply H in Hin.
Qed.

Local Ltac replies :=
  left; do 2 eexists; (split; [reflexivity | auto]).
Local Ltac sends := right; eexists; reflexivity.

(** What the dispatch leaves behind: an early reply with a status, or a
    request to send; no synthesis provider has been called yet. *)
Lemma dispatch_cases
    (text apiMode languageCode modelName voiceName audioEncoding pitch
     speakingRate : Value) :
  exists t, forallb (fun ev => negb (is_fetch ev)) t = true /\
  ((exists code msg,
      dispatch rt text apiMode languageCode modelName voiceName audioEncoding
        pitch speakingRate init_st
      = (Returned (ReplyObject (error_object msg)),
         {| st_status := Some code; st_headers := []; st_trace := t |})
      /\ (code = 429 \/ code = 500)) \/
   (exists o,
      dispatch rt text apiMode languageCode modelName voiceName audioEncoding
        pitch speakingRate init_st
      = (Normal o, {| st_status := None; st_headers := []; st_trace := t |}))).
Proof.
  unfold dispatch.
  destruct (strict_eq_str apiMode "vertex").
  { exists [EvGetAccessToken]. split; [reflexivity |].
    unfold vertex_branch, try_catch, await_access_token, bind, emit.
    destruct (getAccessToken rt) as [token | e]; cbn.
    - destruct (truthy_opt token); cbn; [sends | replies].
    - destruct (quota_check _); cbn; replies. }
  destruct (strict_eq_str apiMode "standard").
  { exists []. split; [reflexivity |]. unfold standard_branch.
    destruct (truthy_opt (GOOGLE_TTS_API_KEY rt)); cbn; [sends | replies]. }
  destruct (strict_eq_str apiMode "openai").
  { exists []. split; [reflexivity |]. unfold openai_branch.
    destruct (truthy_opt (OPENAI_API_KEY rt)); cbn; [sends | replies]. }
  exists []. split; [reflexivity |]. sends.
Qed.

End Stages.

Section Serving.

Variable rt : Runtime.
Variable req : TtsRequest.

(** Every run is one of: an early reply without a synthesis call, a failed
    call answered with the internal error, or a provider response handed to
    [finish]. *)
Lemma serve_cases :
  (exists code msg t,
      serve rt req = (error_response code msg, t)
      /\ forallb (fun ev => negb (is_fetch ev)) t = true
      /\ (code = 400 \/ code = 429 \/ code = 500)) \/
  (exists t url h p e,
      serve rt req = (error_response 500 "Internal server error",
                      t ++ [EvFetch url h p])
      /\ forallb (fun ev => negb (is_fetch ev)) t = true
      /\ fetch rt url h p = FetchRejected e) \/
  (exists t url h p response,
      serve rt req
      = finish rt req response
          {| st_status := None; st_headers := [];
             st_trace := t ++ [EvFetch url h p] |}
      /\ forallb (fun ev => negb (is_fetch ev)) t = true
      /\ fetch rt url h p = FetchResolved response).
Proof.
  unfold finish.
  unfold serve, handler_after, synthesize. cbv zeta.
  destruct (truthy (text req)) eqn:Ht; cbn [negb].
  2:{ left. exists 400, "Text is required", []. cbn. auto. }
  destruct (dispatch_cases rt (text req)
              (default_to (apiMode req) (VStr "standard"))
              (default_to (languageCode req) (VStr "id-ID")) (modelName req)
              (voiceName req) (default_to (audioEncoding req) (VStr "MP3"))
              (default_to (pitch req) (VNum zero)) (default_to (speakingRate req) (VNum one)))
    as [t [Hnf [[code [msg [E Hc]]] | [o E]]]];
    unfold try_catch, bind; rewrite E.
  { left. exists code, msg, t. cbn. intuition. }
  unfold await_fetch.
  destruct (apiUrl o =? "") eqn:Eu.
  { left. exists 500, "Internal server error", t. cbn. auto. }
  unfold bind, emit. cbn [st_status st_headers st_trace].
  destruct (fetch rt (apiUrl o) (out_headers o) (JSON_stringify (requestBody o)))
    as [response | e] eqn:Ef.
  - right; right.
    exists t, (apiUrl o), (out_headers o), (JSON_stringify (requestBody o)),
      response.
    split; [| auto]. reflexivity.
  - right; left.
    exists t, (apiUrl o), (out_headers o), (JSON_stringify (requestBody o)), e.
    split; [| auto]. reflexivity.
Qed.

End Serving.

Section Finishing.

Variable rt : Runtime.
Variable req : TtsRequest.

(** A response that is not [ok] ends in the outer [catch], whatever it
    carries. *)
Lemma finish_not_ok (response : ProviderResponse) (s : St) :
  ok response = false ->
  pristine s ->
  finish rt req response s
  = (error_response 500 "Internal server error", st_trace s).
Proof.
  intros Hok [_ Hh]. unfold finish, answer, try_catch, bind.
  rewrite Hok. cbn [negb].
  destruct (reject_not_ok_throws rt (A := unit) response s) as [e E].
  rewrite E. destruct s as [st hd tr]. cbn in Hh. subst hd. reflexivity.
Qed.

Lemma finish_ok (response : ProviderResponse) (s : St) :
  ok response = true ->
  pristine s ->
  finish rt req response s
  = (error_response 500 "Internal server error", st_trace s) \/
  finish rt req response s
  = (error_response 500 "Failed to generate audio", st_trace s) \/
  exists data,
    finish rt req response s
    = (audio_response (content_type_of (default_to (audioEncoding req) (VStr "MP3"))) data,
       st_trace s).
Proof.
  intros Hok [Hs Hh]. unfold finish, answer, try_catch, bind.
  rewrite Hok. cbn [negb]. unfold ret.
  destruct (deliver_ok rt (default_to (apiMode req) (VStr "standard"))
              (default_to (audioEncoding req) (VStr "MP3")) response s Hok Hh)
    as [[e E] | [E | [data [s' [E [Hs' Ht']]]]]]; rewrite E.
  - left. destruct s as [st hd tr]. cbn in Hh. subst hd. reflexivity.
  - right; left. destruct s as [st hd tr]. cbn in Hh. subst hd. reflexivity.
  - right; right. exists data. cbn. unfold audio_response.
    now rewrite Hs', Hs, Ht'.
Qed.

Lemma finish_trace (response : ProviderResponse) (s : St) :
  pristine s -> snd (finish rt req response s) = st_trace s.
Proof.
  intros Hp. destruct (ok response) eqn:Hok.
  - destruct (finish_ok response s Hok Hp) as [E | [E | [data E]]];
      now rewrite E.
  - now rewrite (finish_not_ok response s Hok Hp).
Qed.

(** The provider's response to the call that a run made decides the rest
    of the run. *)
Lemma served_by (url : string) (h : Headers) (p : option Value)
    (response : ProviderResponse) :
  In (EvFetch url h p) (calls_of rt req) ->
  fetch rt url h p = FetchResolved response ->
  exists s, pristine s /\ serve rt req = finish rt req response s.
Proof.
  intros Hin Hf. unfold calls_of in Hin.
  destruct (serve_cases rt req)
    as [[code [msg [t [E [Hnf _]]]]]
       | [[t [u [h' [p' [e [E [Hnf Hr]]]]]]]
         | [t [u [h' [p' [r [E [Hnf Hr]]]]]]]]].
  - rewrite E in Hin. cbn in Hin. now apply no_fetch_in in Hin.
  - rewrite E in Hin. cbn in Hin. apply in_app_or in Hin.
    destruct Hin as [Hin | [Heq | []]]; [now apply no_fetch_in in Hin |].
    injection Heq as -> -> ->. congruence.
  - assert (pristine {| st_status := None; st_headers := [];
                        st_trace := t ++ [EvFetch u h' p'] |}) as Hp
        by (split; reflexivity).
    rewrite E, finish_trace in Hin by exact Hp. cbn in Hin.
    apply in_app_or in Hin.
    destruct Hin as [Hin | [Heq | []]]; [now apply no_fetch_in in Hin |].
    injection Heq as -> -> ->.
    assert (r = response) as -> by congruence.
    eexists. split; [exact Hp | exact E].
Qed.

(** Whatever a provider says in a response that is not [ok], the client
    gets the reply of the outer [catch]. *)
Lemma not_ok_is_internal_error (url : string) (h : Headers) (p : option Value)
    (response : ProviderResponse) :
  In (EvFetch url h p) (calls_of rt req) ->
  fetch rt url h p = FetchResolved response ->
  ok response = false ->
  response_of rt req = error_response 500 "Internal server error".
Proof.
  intros Hin Hf Hok.
  destruct (served_by url h p response Hin Hf) as [s [Hp E]].
  unfold response_of. rewrite E, finish_not_ok by assumption. reflexivity.
Qed.

(** Every reply is a JSON error object or audio with its two headers. *)
Lemma reply_shapes :
  (exists code msg, response_of rt req = error_response code msg
                    /\ (code = 400 \/ code = 429 \/ code = 500)) \/
  (exists data,
      response_of rt req
      = audio_response (content_type_of (default_to (audioEncoding req) (VStr "MP3"))) data).
Proof.
  unfold response_of.
  destruct (serve_cases rt req)
    as [[code [msg [t [E [Hnf Hc]]]]]
       | [[t [u [h' [p' [e [E [Hnf Hr]]]]]]]
         | [t [u [h' [p' [r [E [Hnf Hr]]]]]]]]]; rewrite E.
  - left. exists code, msg. auto.
  - left. exists 500, "Internal server error". auto.
  - assert (pristine {| st_status := None; st_headers := [];
                        st_trace := t ++ [EvFetch u h' p'] |}) as Hp
        by (split; reflexivity).
    destruct (ok r) eqn:Hok.
    + destruct (finish_ok r _ Hok Hp) as [E' | [E' | [data E']]]; rewrite E'.
      * left. exists 500, "Internal server error". auto.
      * left. exists 500, "Failed to generate audio". auto.
      * right. exists data. reflexivity.
    + rewrite (finish_not_ok r _ Hok Hp).
      left. exists 500, "Internal server error". auto.
Qed.

End Finishing.

(* ===================================================================== *)
(** ** Numbers *)
(* ===================================================================== *)

Lemma num_eq_zero (n : number) :
  num_eq n zero = true <-> exists sign, n = S754_zero sign.
Proof.
  unfold num_eq, zero.
  destruct n as [s | s | | s m e]; cbn.
  - split; eauto.
  - destruct s; split; try discriminate; intros [? H]; discriminate.
  - split; try discriminate; intros [? H]; discriminate.
  - destruct s; split; try discriminate; intros [? H]; discriminate.
Qed.

Lemma SFeqb_positive_finite (m m' : positive) (e e' : Z) :
  SFeqb (S754_finite false m e) (S754_finite false m' e') = true
  <-> m = m' /\ e = e'.
Proof.
  unfold SFeqb, SFcompare.
  destruct (Z.compare_spec e e') as [He | He | He].
  - fold (Pos.compare m m').
    destruct (Pos.compare_spec m m') as [Hm | Hm | Hm].
    + split; auto.
    + split; [discriminate | intros [E _]; lia].
    + split; [discriminate | intros [E _]; lia].
  - split; [discriminate | intros [_ E]; lia].
  - split; [discriminate | intros [_ E]; lia].
Qed.

Lemma num_eq_one (n : number) : num_eq n one = true <-> n = one.
Proof.
  unfold num_eq, one.
  destruct n as [s | s | | s m e]; try destruct s;
    try (split; discriminate).
  rewrite SFeqb_positive_finite. split.
  - intros [-> ->]. reflexivity.
  - intros E. injection E as -> ->. split; reflexivity.
Qed.

Lemma strict_eq_num_zero (v : Value) :
  strict_eq_num v zero = true <-> is_zero v.
Proof.
  unfold is_zero. destruct v; cbn [strict_eq_num];
    try (split; [discriminate | intros [? H]; discriminate]).
  rewrite num_eq_zero. split; intros [sign H]; exists sign; congruence.
Qed.

Lemma strict_eq_num_one (v : Value) :
  strict_eq_num v one = true <-> v = VNum one.
Proof.
  destruct v; cbn [strict_eq_num]; try (split; discriminate).
  rewrite num_eq_one. split; congruence.
Qed.

(* ===================================================================== *)
(** ** What is sent *)
(* ===================================================================== *)

Section Sending.

Variable rt : Runtime.
Variable req : TtsRequest.

(** Once the dispatch has assembled a request with a URL, the call is made
    and is the last call of the run. *)
Lemma calls_after_dispatch (o : Outbound) (t : list Event) :
  truthy (text req) = true ->
  dispatch rt (text req) (default_to (apiMode req) (VStr "standard"))
    (default_to (languageCode req) (VStr "id-ID")) (modelName req) (voiceName req)
    (default_to (audioEncoding req) (VStr "MP3")) (default_to (pitch req) (VNum zero))
    (default_to (speakingRate req) (VNum one)) init_st
  = (Normal o, {| st_status := None; st_headers := []; st_trace := t |}) ->
  (apiUrl o =? "") = false ->
  calls_of rt req
  = t ++ [EvFetch (apiUrl o) (out_headers o) (JSON_stringify (requestBody o))].
Proof.
  intros Ht E Eu.
  set (s1 := {| st_status := None; st_headers := [];
                st_trace := t ++ [EvFetch (apiUrl o) (out_headers o)
                                    (JSON_stringify (requestBody o))] |}).
  assert (pristine s1) as Hp by (split; reflexivity).
  assert (serve rt req
          = match fetch rt (apiUrl o) (out_headers o)
                    (JSON_stringify (requestBody o)) with
            | FetchResolved r => finish rt req r s1
            | FetchRejected _ =>
                (error_response 500 "Internal server error", st_trace s1)
            end) as Es.
  { unfold finish, serve, handler_after, synthesize. cbv zeta.
    rewrite Ht. cbn [negb]. unfold try_catch, bind. rewrite E.
    unfold await_fetch. rewrite Eu. unfold bind, emit.
    cbn [st_status st_headers st_trace].
    destruct (fetch rt (apiUrl o) (out_headers o)
                (JSON_stringify (requestBody o))); reflexivity. }
  unfold calls_of. rewrite Es.
  destruct (fetch rt (apiUrl o) (out_headers o) (JSON_stringify (requestBody o))).
  - now rewrite finish_trace.
  - reflexivity.
Qed.

End Sending.

Lemma content_type_other (audioEncoding : Value) :
  audioEncoding <> VStr "LINEAR16" ->
  content_type_of (default_to audioEncoding (VStr "MP3")) = "audio/mpeg".
Proof.
  intros Hne. unfold content_type_of.
  destruct (strict_eq_str _ _) eqn:E; [| reflexivity].
  apply strict_eq_str_spec in E.
  destruct audioEncoding; cbn in E; try discriminate; now elim Hne.
Qed.

(** C7: a reply with status 200 carries [Content-Type: audio/wav] when the
    request's [audioEncoding] is ["LINEAR16"], and [audio/mpeg] for every
    other value and for an absent one. *)
Theorem content_type_follows_encoding (rt : Runtime) (req : TtsRequest) :
  status (response_of rt req) = 200 ->
  (audioEncoding req = VStr "LINEAR16" ->
   header "Content-Type" (headers (response_of rt req)) = Some "audio/wav")
  /\
  (audioEncoding req <> VStr "LINEAR16" ->
   header "Content-Type" (headers (response_of rt req)) = Some "audio/mpeg").
Proof.
  intros H200.
  destruct (reply_shapes rt req) as [[code [msg [E Hc]]] | [data E]];
    rewrite E in *; cbn in H200.
  - exfalso. subst code. destruct Hc as [H | [H | H]]; discriminate.
  - cbn. split.
    + intros ->. reflexivity.
    + intros Hne. now rewrite (content_type_other _ Hne).
Qed.

Lemma content_type_follows_encoding_witness :
  header "Content-Type"
    (headers (response_of (Demo.answering (Demo.provider_audio (VStr "aGFsbw==")))
                (Demo.say_as (Some "standard") (Some "LINEAR16"))))
  = Some "audio/wav"
  /\
  header "Content-Type"
    (headers (response_of (Demo.answering (Demo.provider_raw [x52; x49]))
                (Demo.say_as (Some "openai") (Some "OGG_OPUS"))))
  = Some "audio/mpeg".
Proof.
  split.
  - apply (content_type_follows_encoding
             (Demo.answering (Demo.provider_audio (VStr "aGFsbw==")))
             (Demo.say_as (Some "standard") (Some "LINEAR16")));
      reflexivity.
  - apply (content_type_follows_encoding
             (Demo.answering (Demo.provider_raw [x52; x49]))
             (Demo.say_as (Some "openai") (Some "OGG_OPUS")));
      [reflexivity | discriminate].
Defined.

(** C8: for a standard request that reaches the provider, the payload's
    [audioConfig] has a [pitch] field exactly when the request's pitch is
    not zero and a [speakingRate] field exactly when its rate is not one;
    at the defaults it holds [audioEncoding] alone. *)
Theorem standard_payload_omits_defaults (rt : Runtime) (req : TtsRequest) :
  truthy (text req) = true ->
  default_to (apiMode req) (VStr "standard") = VStr "standard" ->
  truthy_opt (GOOGLE_TTS_API_KEY rt) = true ->
  sends_tuned rt req.
Proof.
  intros Ht Hm Hk. unfold sends_tuned. cbv zeta.
  pose (o := {| requestBody :=
                  standard_requestBody (text req)
                    (default_to (languageCode req) (VStr "id-ID"))
                    (voiceName req) (modelName req)
                    (default_to (audioEncoding req) (VStr "MP3"))
                    (default_to (pitch req) (VNum zero))
                    (default_to (speakingRate req) (VNum one));
                apiUrl := (synthesize_url ++ "?key="
                           ++ default (GOOGLE_TTS_API_KEY rt) "")%string;
                out_headers := json_headers |}).
  assert (calls_of rt req
          = [] ++ [EvFetch (apiUrl o) (out_headers o)
                     (JSON_stringify (requestBody o))]) as Ec.
  { apply calls_after_dispatch; [exact Ht | | reflexivity].
    rewrite Hm. unfold dispatch.
    cbn [strict_eq_str String.eqb Ascii.eqb Bool.eqb].
    unfold standard_branch. rewrite Hk. reflexivity. }
  rewrite Ec. cbn [app apiUrl out_headers requestBody o]. clear Ec o.
  assert (default_to (pitch req) (VNum zero) <> VUndef) as Hp
      by (apply default_to_defined; discriminate).
  assert (default_to (speakingRate req) (VNum one) <> VUndef) as Hr
      by (apply default_to_defined; discriminate).
  assert (default_to (audioEncoding req) (VStr "MP3") <> VUndef) as He
      by (apply default_to_defined; discriminate).
  pose proof (strict_eq_num_zero (default_to (pitch req) (VNum zero))) as Hz.
  pose proof (strict_eq_num_one (default_to (speakingRate req) (VNum one)))
    as Ho.
  generalize dependent (default_to (pitch req) (VNum zero)).
  generalize dependent (default_to (speakingRate req) (VNum one)).
  generalize dependent (default_to (audioEncoding req) (VStr "MP3")).
  intros enc He r Hr Ho p Hp Hz.
  exists (synthesize_url ++ "?key=" ++ default (GOOGLE_TTS_API_KEY rt) "")%string,
    (stringify_tree (VObj [("text", text req)])),
    (stringify_tree
       (VObj (standard_voice (default_to (languageCode req) (VStr "id-ID"))
                (voiceName req) (modelName req)))),
    (stringify_props (standard_audioConfig enc p r)).
  split; [reflexivity |].
  unfold standard_audioConfig.
  destruct (strict_eq_num p zero) eqn:Ep;
    destruct (strict_eq_num r one) eqn:Er;
    cbn [negb app];
    rewrite !stringify_props_cons, stringify_props_nil,
      ?(field_defined _ enc He), ?(field_defined _ p Hp),
      ?(field_defined _ r Hr);
    cbn [app has_key lookup String.eqb Ascii.eqb Bool.eqb orb];
    unfold not; repeat split; try tauto; try discriminate; intros;
    try (exfalso; intuition congruence).
Qed.

Lemma standard_payload_omits_defaults_witness :
  sends_tuned (Demo.answering (Demo.provider_audio (VStr "aGFsbw==")))
    (Demo.tuned (Some five) None).
Proof.
  apply (standard_payload_omits_defaults
           (Demo.answering (Demo.provider_audio (VStr "aGFsbw==")))
           (Demo.tuned (Some five) None)); reflexivity.
Defined.

(** C9: a vertex request always asks the provider for ["LINEAR16"],
    whatever its own [audioEncoding] is, while the [Content-Type] of a 200
    reply is computed from the request's [audioEncoding]: [audio/wav] for
    ["LINEAR16"] and [audio/mpeg] for anything else; so with the default
    or ["MP3"] the audio asked as LINEAR16 is labelled [audio/mpeg]. *)
Theorem vertex_asks_linear16 (rt : Runtime) (req : TtsRequest) (token : string) :
  truthy (text req) = true ->
  apiMode req = VStr "vertex" ->
  getAccessToken rt = TokenResolved (Some token) ->
  token <> "" ->
  asks_linear16 rt req
  /\ (status (response_of rt req) = 200 ->
      (audioEncoding req = VStr "LINEAR16" ->
       header "Content-Type" (headers (response_of rt req)) = Some "audio/wav")
      /\
      (audioEncoding req <> VStr "LINEAR16" ->
       header "Content-Type" (headers (response_of rt req))
       = Some "audio/mpeg"))
  /\ (audioEncoding req = VUndef \/ audioEncoding req = VStr "MP3" ->
      status (response_of rt req) = 200 ->
      header "Content-Type" (headers (response_of rt req)) = Some "audio/mpeg").
Proof.
  intros Ht Hm Hg Hne.
  assert (status (response_of rt req) = 200 ->
          header "Content-Type" (headers (response_of rt req))
          = Some (content_type_of
                    (default_to (audioEncoding req) (VStr "MP3")))) as Hct.
  { intros H200.
    destruct (reply_shapes rt req) as [[code [msg [E Hc]]] | [data E]];
      rewrite E in *; cbn in H200.
    - exfalso. subst code. destruct Hc as [H | [H | H]]; discriminate.
    - reflexivity. }
  split; [| split].
  - unfold asks_linear16.
    pose (o := {| requestBody :=
                    vertex_requestBody (text req)
                      (default_to (languageCode req) (VStr "id-ID"))
                      (voiceName req);
                  apiUrl := synthesize_url;
                  out_headers :=
                    assign "Authorization" ("Bearer " ++ token) json_headers |}).
    assert (calls_of rt req
            = [EvGetAccessToken]
              ++ [EvFetch (apiUrl o) (out_headers o)
                    (JSON_stringify (requestBody o))]) as Ec.
    { apply calls_after_dispatch; [exact Ht | | reflexivity].
      rewrite Hm. unfold dispatch.
      cbn [default_to strict_eq_str String.eqb Ascii.eqb Bool.eqb].
      unfold vertex_branch, try_catch, await_access_token, bind, emit.
      rewrite Hg. unfold ret at 1. cbv beta iota.
      cbn [truthy_opt]. unfold truthy_str.
      apply String.eqb_neq in Hne. rewrite Hne. reflexivity. }
    rewrite Ec. cbn [app apiUrl out_headers requestBody o].
    unfold vertex_requestBody.
    exists (assign "Authorization" ("Bearer " ++ token) json_headers),
      (stringify_tree (VObj [("text", text req)])),
      (stringify_tree
         (VObj [("languageCode", default_to (languageCode req) (VStr "id-ID"));
                ("modelName", VStr "gemini-2.5-flash-tts");
                ("name", voiceName req)])).
    reflexivity.
  - intros H200. rewrite (Hct H200). split.
    + intros ->. reflexivity.
    + intros Hn. now rewrite (content_type_other _ Hn).
  - intros He H200. rewrite (Hct H200).
    destruct He as [-> | ->]; reflexivity.
Qed.

Lemma vertex_asks_linear16_witness :
  (asks_linear16 (Demo.answering (Demo.provider_audio (VStr "UklGRg==")))
     (Demo.say_as (Some "vertex") (Some "MP3"))
   /\ header "Content-Type"
        (headers (response_of
                    (Demo.answering (Demo.provider_audio (VStr "UklGRg==")))
                    (Demo.say_as (Some "vertex") (Some "MP3"))))
      = Some "audio/mpeg")
  /\
  (asks_linear16 (Demo.answering (Demo.provider_audio (VStr "UklGRg==")))
     (Demo.say_as (Some "vertex") (Some "LINEAR16"))
   /\ header "Content-Type"
        (headers (response_of
                    (Demo.answering (Demo.provider_audio (VStr "UklGRg==")))
                    (Demo.say_as (Some "vertex") (Some "LINEAR16"))))
      = Some "audio/wav").
Proof.
  assert ("ya29.token" <> "") as Hne by discriminate.
  pose proof (vertex_asks_linear16
                (Demo.answering (Demo.provider_audio (VStr "UklGRg==")))
                (Demo.say_as (Some "vertex") (Some "MP3")) "ya29.token"
                eq_refl eq_refl eq_refl Hne) as [Ha [_ Hb]].
  pose proof (vertex_asks_linear16
                (Demo.answering (Demo.provider_audio (VStr "UklGRg==")))
                (Demo.say_as (Some "vertex") (Some "LINEAR16")) "ya29.token"
                eq_refl eq_refl eq_refl Hne) as [Ha' [Hb' _]].
  split; split.
  - exact Ha.
  - apply Hb; [right |]; reflexivity.
  - exact Ha'.
  - apply (proj1 (Hb' eq_refl)). reflexivity.
Defined.

(* ===================================================================== *)
(** ** Decoding the provider's audio *)
(* ===================================================================== *)

Section Decoding.

Variable rt : Runtime.
Variable req : TtsRequest.

Let encoding := default_to (audioEncoding req) (VStr "MP3").

Lemma nat_to_string_reads_back (n : nat) : parse_nat (nat_to_string n) = Some n.
Proof.
  unfold parse_nat, nat_to_string.
  now rewrite NilEmpty.usu; cbn [option_map]; rewrite Unsigned.of_to.
Qed.

Lemma finish_decodes (response : ProviderResponse) (data : Value)
    (audioContent : string) (s : St) :
  ok response = true ->
  default_to (apiMode req) (VStr "standard") <> VStr "openai" ->
  json response = Some data ->
  get data "audioContent" = Some (VStr audioContent) ->
  audioContent <> "" ->
  pristine s ->
  finish rt req response s
  = (audio_response (content_type_of encoding)
       (Buffer_from_base64 rt audioContent), st_trace s).
Proof.
  intros Hok Hm Hj Hg Hne [Hs Hh].
  apply strict_eq_str_neq in Hm. apply String.eqb_neq in Hne.
  unfold finish, answer, try_catch, bind. rewrite Hok. cbn [negb].
  unfold ret, deliver. rewrite Hm.
  unfold await_json, or_throw, bind, ret. rewrite Hj, Hg.
  cbn [truthy]. rewrite Hne. cbn [negb Buffer_from]. unfold ret.
  cbn. unfold audio_response, audio_headers. now rewrite Hs.
Qed.

Lemma finish_falsy (response : ProviderResponse) (data audioContent : Value)
    (s : St) :
  ok response = true ->
  default_to (apiMode req) (VStr "standard") <> VStr "openai" ->
  json response = Some data ->
  get data "audioContent" = Some audioContent ->
  truthy audioContent = false ->
  pristine s ->
  finish rt req response s
  = (error_response 500 "Failed to generate audio", st_trace s).
Proof.
  intros Hok Hm Hj Hg Hf [Hs Hh].
  apply strict_eq_str_neq in Hm.
  unfold finish, answer, try_catch, bind. rewrite Hok. cbn [negb].
  unfold ret, deliver. rewrite Hm.
  unfold await_json, or_throw, bind, ret. rewrite Hj, Hg, Hf.
  cbn. unfold error_response. now rewrite Hh.
Qed.

Lemma lookup_missing (k : string) (props : list (string * Value)) :
  has_key k props = false -> lookup k props = VUndef.
Proof.
  induction props as [| [k' v] rest IH]; cbn; [reflexivity |].
  destruct (k' =? k); cbn; [discriminate | exact IH].
Qed.

Lemma finish_no_field (response : ProviderResponse) (data : Value) (s : St) :
  ok response = true ->
  default_to (apiMode req) (VStr "standard") <> VStr "openai" ->
  json response = Some data ->
  get data "audioContent" = None ->
  pristine s ->
  finish rt req response s
  = (error_response 500 "Internal server error", st_trace s).
Proof.
  intros Hok Hm Hj Hg [Hs Hh]. apply strict_eq_str_neq in Hm.
  unfold finish, answer, try_catch, bind. rewrite Hok. cbn [negb].
  unfold ret, deliver. rewrite Hm.
  unfold await_json, or_throw, bind, ret. rewrite Hj, Hg.
  cbn. unfold error_response. now rewrite Hh.
Qed.

(** A body that is [ok] but has no [audioContent] property. *)
Lemma finish_missing (response : ProviderResponse) (data : Value) (s : St) :
  ok response = true ->
  default_to (apiMode req) (VStr "standard") <> VStr "openai" ->
  json response = Some data ->
  (forall props, data = VObj props -> has_key "audioContent" props = false) ->
  pristine s ->
  status (fst (finish rt req response s)) = 500.
Proof.
  intros Hok Hm Hj Hmiss Hp.
  destruct (get data "audioContent") as [audioContent |] eqn:Hg.
  - assert (audioContent = VUndef) as ->.
    { destruct data; cbn in Hg; try discriminate;
        try (now injection Hg as <-).
      injection Hg as <-. apply lookup_missing. now apply Hmiss. }
    now rewrite (finish_falsy response data VUndef s).
  - now rewrite (finish_no_field response data s).
Qed.

End Decoding.

(** C6, as amended: when the standard or vertex provider answers [ok] with
    JSON whose [audioContent] is a non-empty string, the reply is 200 with
    the base64 decoding of that string as body and its length in decimal
    as [Content-Length]; when the JSON has no [audioContent] property the
    reply is a 500.  (A property that is there but falsy is answered with
    the 500 of line 210.) *)
Theorem audioContent_is_decoded (rt : Runtime) (req : TtsRequest)
    (url : string) (h : Headers) (p : option Value)
    (response : ProviderResponse) (data : Value) :
  In (EvFetch url h p) (calls_of rt req) ->
  fetch rt url h p = FetchResolved response ->
  ok response = true ->
  default_to (apiMode req) (VStr "standard") <> VStr "openai" ->
  json response = Some data ->
  (forall audioContent,
      get data "audioContent" = Some (VStr audioContent) ->
      audioContent <> "" ->
      let decoded := Buffer_from_base64 rt audioContent in
      response_of rt req
      = {| status := 200;
           headers :=
             [("Content-Type",
               content_type_of (default_to (audioEncoding req) (VStr "MP3")));
              ("Content-Length", nat_to_string (List.length decoded))];
           body := BinaryBody decoded |}
      /\ content_length (response_of rt req) = Some (List.length decoded))
  /\
  ((forall props, data = VObj props -> has_key "audioContent" props = false) ->
   status (response_of rt req) = 500)
  /\
  (forall audioContent,
      get data "audioContent" = Some audioContent ->
      truthy audioContent = false ->
      response_of rt req = error_response 500 "Failed to generate audio").
Proof.
  intros Hin Hf Hok Hm Hj.
  destruct (served_by rt req url h p response Hin Hf) as [s [Hp E]].
  unfold response_of. rewrite E. split; [| split].
  - intros audioContent Hg Hne. cbv zeta.
    rewrite (finish_decodes rt req response data audioContent s)
      by assumption.
    split; [reflexivity |].
    unfold content_length, audio_response, audio_headers, header.
    cbn [fst snd find headers String.eqb Ascii.eqb Bool.eqb].
    apply nat_to_string_reads_back.
  - intros Hmiss.
    exact (finish_missing rt req response data s Hok Hm Hj Hmiss Hp).
  - intros audioContent Hg Htr.
    now rewrite (finish_falsy rt req response data audioContent s).
Qed.

Lemma audioContent_is_decoded_witness :
  (response_of (Demo.answering (Demo.provider_audio (VStr "aGFsbw==")))
     (Demo.say (Some "halo") None)
   = {| status := 200;
        headers := [("Content-Type", "audio/mpeg"); ("Content-Length", "4")];
        body := BinaryBody [x68; x61; x6c; x6f] |}
   /\ content_length
        (response_of (Demo.answering (Demo.provider_audio (VStr "aGFsbw==")))
           (Demo.say (Some "halo") None)) = Some 4)
  /\
  status (response_of
            (Demo.answering {| ok := true; json := Some (VObj []); bytes := [] |})
            (Demo.say (Some "halo") (Some "vertex"))) = 500.
Proof.
  assert (default_to (apiMode (Demo.say (Some "halo") None)) (VStr "standard")
          <> VStr "openai") as Hm by discriminate.
  assert (default_to (apiMode (Demo.say (Some "halo") (Some "vertex")))
            (VStr "standard") <> VStr "openai") as Hm' by discriminate.
  pose proof
    (fun url h p Hin =>
       proj1 (audioContent_is_decoded
                (Demo.answering (Demo.provider_audio (VStr "aGFsbw==")))
                (Demo.say (Some "halo") None) url h p
                (Demo.provider_audio (VStr "aGFsbw=="))
                (VObj [("audioContent", VStr "aGFsbw==")])
                Hin eq_refl eq_refl Hm eq_refl)) as Hd.
  pose proof
    (fun url h p Hin =>
       proj1 (proj2 (audioContent_is_decoded
                (Demo.answering
                   {| ok := true; json := Some (VObj []); bytes := [] |})
                (Demo.say (Some "halo") (Some "vertex")) url h p
                {| ok := true; json := Some (VObj []); bytes := [] |}
                (VObj []) Hin eq_refl eq_refl Hm' eq_refl))) as Hmiss.
  split.
  - refine (Hd _ _ _ _ "aGFsbw==" eq_refl _); [| discriminate].
    cbv. left; reflexivity.
  - refine (Hmiss _ _ _ _ _); [| intros props [= <-]; reflexivity].
    cbv. right; left; reflexivity.
Defined.

(** C6 as stated fails: a provider response that is [ok] and carries an
    [audioContent] field holding the empty string is answered with 500. *)
Lemma empty_audioContent_is_500 :
  let response := Demo.provider_audio (VStr "") in
  let req := Demo.say (Some "halo") (Some "standard") in
  ok response = true
  /\ json response = Some (VObj [("audioContent", VStr "")])
  /\ has_key "audioContent" [("audioContent", VStr "")] = true
  /\ response_of (Demo.answering response) req
     = error_response 500 "Failed to generate audio"
  /\ status (response_of (Demo.answering response) req) <> 200.
Proof.
  cbv zeta. repeat split. discriminate.
Qed.

(* ===================================================================== *)
(** ** Provider errors and the quota heuristic *)
(* ===================================================================== *)

(** On a string message the condition of lines 170-171 is [quota_check]. *)
Lemma quota_check_value_str (m : string) :
  quota_check_value (VStr m) = Some (quota_check m).
Proof.
  unfold quota_check_value, quota_check, lazy_or, value_includes.
  destruct (includes "quota" m); [reflexivity |].
  destruct (includes "Quota" m); [reflexivity |].
  destruct (includes "requests_per_minute" m); reflexivity.
Qed.

(** What lines 165-176 throw for a string message. *)
Lemma reject_not_ok_str (rt : Runtime) (A : Type) (response : ProviderResponse)
    (m : string) (s : St) :
  reported response (VStr m) ->
  @reject_not_ok rt A response s
  = (Thrown (ThrowError (if quota_check m
                         then "Limit exceeded per project per minute"
                         else m)), s).
Proof.
  intros [errorData [error [Hj [Hg Hm]]]].
  unfold reject_not_ok, await_json, or_throw, bind, ret.
  rewrite Hj, Hg, <- Hm, quota_check_value_str.
  destruct (quota_check m); reflexivity.
Qed.

(** A vertex request whose token acquisition fails. *)
Lemma vertex_token_failure (rt : Runtime) (req : TtsRequest) (e : Exn) :
  truthy (text req) = true ->
  apiMode req = VStr "vertex" ->
  getAccessToken rt = TokenRejected e ->
  serve rt req
  = (if quota_check match e with
                    | ThrowError message => message
                    | ThrowOther => "Service account authentication failed"
                    end
     then error_response 429 "Limit exceeded per project per minute"
     else error_response 500 "Service account authentication failed",
     [EvGetAccessToken]).
Proof.
  intros Ht Hm Hg. unfold_handler. rewrite Ht, Hm.
  unfold dispatch. cbn [default negb String.eqb Ascii.eqb Bool.eqb].
  unfold vertex_branch, try_catch, await_access_token, bind, emit.
  rewrite Hg. unfold throw at 1. cbv beta iota.
  destruct (quota_check _); reflexivity.
Qed.

(** C1: a quota error reported by a provider is not answered with 429.
    When a provider responds with a status that is not [ok] and an error
    message matching the quota heuristic, the [Error] thrown at line 172 is
    caught by the outer [catch] and the reply is 500
    [{"error":"Internal server error"}]. *)
Theorem provider_quota_error_is_500 (rt : Runtime) (req : TtsRequest)
    (url : string) (h : Headers) (p : option Value)
    (response : ProviderResponse) (m : string) :
  In (EvFetch url h p) (calls_of rt req) ->
  fetch rt url h p = FetchResolved response ->
  ok response = false ->
  reported response (VStr m) ->
  quota_check m = true ->
  (forall A s,
      @reject_not_ok rt A response s
      = (Thrown (ThrowError "Limit exceeded per project per minute"), s))
  /\ response_of rt req = error_response 500 "Internal server error"
  /\ status (response_of rt req) <> 429.
Proof.
  intros Hin Hf Hok Hr Hq.
  pose proof (not_ok_is_internal_error rt req url h p response Hin Hf Hok) as E.
  split; [| split].
  - intros A s. rewrite (reject_not_ok_str rt A response m s Hr).
    now rewrite Hq.
  - exact E.
  - rewrite E. cbn. discriminate.
Qed.

Lemma reported_demo (m : string) :
  m <> "" -> reported (Demo.provider_error m) (VStr m).
Proof.
  intros Hne. apply String.eqb_neq in Hne.
  exists (VObj [("error", VObj [("code", VNum five); ("message", VStr m)])]),
    (VObj [("code", VNum five); ("message", VStr m)]).
  repeat split. unfold or_else. cbn. now rewrite Hne.
Qed.

Lemma provider_quota_error_is_500_witness :
  let rt := Demo.answering (Demo.provider_error quota_message) in
  response_of rt (Demo.say (Some "halo") (Some "standard"))
  = error_response 500 "Internal server error"
  /\ response_of rt (Demo.say (Some "halo") (Some "vertex"))
     = error_response 500 "Internal server error"
  /\ response_of rt (Demo.say (Some "halo") (Some "openai"))
     = error_response 500 "Internal server error".
Proof.
  cbv zeta.
  assert (reported (Demo.provider_error quota_message) (VStr quota_message))
    as Hr by (apply reported_demo; discriminate).
  pose proof
    (fun req url h p Hin =>
       proj1 (proj2 (provider_quota_error_is_500
                       (Demo.answering (Demo.provider_error quota_message))
                       req url h p (Demo.provider_error quota_message)
                       quota_message Hin eq_refl eq_refl Hr eq_refl))) as H.
  split; [| split]; eapply H; cbv.
  - left; reflexivity.
  - right; left; reflexivity.
  - left; reflexivity.
Defined.

(** C3, as amended: when a provider responds with a status that is not
    [ok] and an error message that does not match the quota heuristic, the
    reply is 500 with the fixed body [{"error":"Internal server error"}];
    the [Error] thrown at line 175 holds the provider's message, and the
    outer [catch] does not pass it on. *)
Theorem provider_error_is_generic_500 (rt : Runtime) (req : TtsRequest)
    (url : string) (h : Headers) (p : option Value)
    (response : ProviderResponse) (m : string) :
  In (EvFetch url h p) (calls_of rt req) ->
  fetch rt url h p = FetchResolved response ->
  ok response = false ->
  reported response (VStr m) ->
  quota_check m = false ->
  (forall A s, @reject_not_ok rt A response s = (Thrown (ThrowError m), s))
  /\ response_of rt req = error_response 500 "Internal server error".
Proof.
  intros Hin Hf Hok Hr Hq. split.
  - intros A s. rewrite (reject_not_ok_str rt A response m s Hr).
    now rewrite Hq.
  - exact (not_ok_is_internal_error rt req url h p response Hin Hf Hok).
Qed.

Lemma provider_error_is_generic_500_witness :
  response_of (Demo.answering (Demo.provider_error voice_message))
    (Demo.say (Some "halo") (Some "standard"))
  = error_response 500 "Internal server error".
Proof.
  assert (reported (Demo.provider_error voice_message) (VStr voice_message))
    as Hr by (apply reported_demo; discriminate).
  pose proof
    (fun url h p Hin =>
       proj2 (provider_error_is_generic_500
                (Demo.answering (Demo.provider_error voice_message))
                (Demo.say (Some "halo") (Some "standard"))
                url h p (Demo.provider_error voice_message)
                voice_message Hin eq_refl eq_refl Hr eq_refl)) as H.
  eapply H; cbv. left; reflexivity.
Defined.

(** C3 as stated fails: the provider's own message is not in the body of
    the reply. *)
Lemma provider_message_is_not_surfaced :
  let response := Demo.provider_error voice_message in
  let req := Demo.say (Some "halo") (Some "standard") in
  ok response = false
  /\ quota_check voice_message = false
  /\ body (response_of (Demo.answering response) req)
     = JsonBody (error_object "Internal server error")
  /\ body (response_of (Demo.answering response) req)
     <> JsonBody (error_object voice_message).
Proof.
  cbv zeta. repeat split. discriminate.
Qed.

(** C4, as amended: the classification is case-sensitive containment of
    one of ["quota"], ["Quota"], ["requests_per_minute"], ["rate limit"];
    a message that contains none of the three needles in any letter casing
    is not classified.  A message so classified makes a failed token
    acquisition a 429 and makes line 172 throw the quota error. *)
Theorem quota_classification (m : string) :
  (quota_check m = true <->
   occurs_in "quota" m \/ occurs_in "Quota" m \/
   occurs_in "requests_per_minute" m \/ occurs_in "rate limit" m)
  /\ (~ occurs_any_case "quota" m ->
      ~ occurs_any_case "requests_per_minute" m ->
      ~ occurs_any_case "rate limit" m ->
      quota_check m = false)
  /\ quota_check_value (VStr m) = Some (quota_check m)
  /\ (forall rt req,
         truthy (text req) = true ->
         apiMode req = VStr "vertex" ->
         getAccessToken rt = TokenRejected (ThrowError m) ->
         (quota_check m = true <-> status (response_of rt req) = 429)).
Proof.
  split; [apply quota_check_occurs |].
  split.
  { intros H1 H2 H3. destruct (quota_check m) eqn:E; [| reflexivity].
    apply quota_check_any_case in E. tauto. }
  split; [apply quota_check_value_str |].
  intros rt req Ht Hm Hg. unfold response_of.
  rewrite (vertex_token_failure rt req _ Ht Hm Hg).
  destruct (quota_check m); cbn; split; intros; try reflexivity; discriminate.
Qed.

Lemma quota_classification_witness :
  quota_check "Request throttled: too many calls" = false
  /\ status (response_of (Demo.unconfigured (ThrowError "Quota exceeded"))
               (Demo.say (Some "halo") (Some "vertex"))) = 429.
Proof.
  destruct (quota_classification "Request throttled: too many calls")
    as [_ [Hnone _]].
  destruct (quota_classification "Quota exceeded") as [_ [_ [_ Hv]]].
  split.
  - apply Hnone; intros H; apply occurs_any_caseb_spec in H; discriminate.
  - apply (Hv (Demo.unconfigured (ThrowError "Quota exceeded"))
              (Demo.say (Some "halo") (Some "vertex")));
      reflexivity.
Defined.

(** C4 as stated fails: upper-case needles are not recognised. *)
Lemma upper_case_quota_is_not_classified :
  occurs_any_case "quota" "QUOTA EXCEEDED"
  /\ quota_check "QUOTA EXCEEDED" = false
  /\ occurs_any_case "rate limit" "Rate Limit reached"
  /\ quota_check "Rate Limit reached" = false
  /\ response_of (Demo.unconfigured (ThrowError "QUOTA EXCEEDED"))
       (Demo.say (Some "halo") (Some "vertex"))
     = error_response 500 "Service account authentication failed".
Proof.
  repeat split; try (apply occurs_any_caseb_spec; reflexivity).
Qed.

(* ===================================================================== *)
(** ** The run of a request, branch by branch *)
(* ===================================================================== *)

Section Branches.

Variable rt : Runtime.
Variable req : TtsRequest.

Hypothesis text_given : truthy (text req) = true.

Lemma serve_early (r : Reply) (s : St) :
  dispatch_of rt req init_st = (Returned r, s) ->
  serve rt req = (send (Returned r) s, st_trace s).
Proof.
  intros E. unfold dispatch_of in E. unfold_handler.
  rewrite text_given. cbn [negb]. now rewrite E.
Qed.

Lemma serve_blank (o : Outbound) (s : St) :
  dispatch_of rt req init_st = (Normal o, s) ->
  (apiUrl o =? "") = true ->
  serve rt req
  = (send (Returned (ReplyObject (error_object "Internal server error")))
       (with_status 500 s), st_trace s).
Proof.
  intros E Eu. unfold dispatch_of in E. unfold_handler.
  rewrite text_given. cbn [negb]. rewrite E.
  unfold await_fetch. rewrite Eu. reflexivity.
Qed.

Lemma serve_sent (o : Outbound) (s : St) :
  dispatch_of rt req init_st = (Normal o, s) ->
  (apiUrl o =? "") = false ->
  serve rt req
  = match fetch rt (apiUrl o) (out_headers o) (JSON_stringify (requestBody o)) with
    | FetchResolved response =>
        finish rt req response
          {| st_status := st_status s; st_headers := st_headers s;
             st_trace := st_trace s ++ [call_of o] |}
    | FetchRejected _ =>
        (send (Returned (ReplyObject (error_object "Internal server error")))
           (with_status 500 s), st_trace s ++ [call_of o])
    end.
Proof.
  intros E Eu. unfold dispatch_of in E.
  unfold finish, serve, handler_after, synthesize. cbv zeta.
  rewrite text_given. cbn [negb]. unfold try_catch, bind. rewrite E.
  unfold await_fetch. rewrite Eu. unfold bind, emit.
  cbn [st_status st_headers st_trace].
  destruct (fetch rt (apiUrl o) (out_headers o) (JSON_stringify (requestBody o)));
    reflexivity.
Qed.

Lemma dispatch_standard :
  default_to (apiMode req) (VStr "standard") = VStr "standard" ->
  dispatch_of rt req init_st
  = if truthy_opt (GOOGLE_TTS_API_KEY rt)
    then (Normal (standard_outbound rt req), init_st)
    else (Returned (ReplyObject (error_object "TTS API key not configured")),
          with_status 500 init_st).
Proof.
  intros Hm. unfold dispatch_of, dispatch. rewrite Hm.
  cbn [String.eqb Ascii.eqb Bool.eqb]. unfold standard_branch.
  destruct (truthy_opt (GOOGLE_TTS_API_KEY rt)); reflexivity.
Qed.

Lemma dispatch_openai :
  apiMode req = VStr "openai" ->
  dispatch_of rt req init_st
  = if truthy_opt (OPENAI_API_KEY rt)
    then (Normal (openai_outbound rt req), init_st)
    else (Returned (ReplyObject (error_object "OpenAI API key not configured")),
          with_status 500 init_st).
Proof.
  intros Hm. unfold dispatch_of, dispatch. rewrite Hm.
  cbn [default String.eqb Ascii.eqb Bool.eqb]. unfold openai_branch.
  destruct (truthy_opt (OPENAI_API_KEY rt)); reflexivity.
Qed.

Lemma dispatch_vertex :
  apiMode req = VStr "vertex" ->
  dispatch_of rt req init_st
  = match getAccessToken rt with
    | TokenResolved token =>
        if truthy_opt token
        then (Normal (vertex_outbound req (default token "")), token_asked)
        else (Returned (ReplyObject
                          (error_object "Failed to get service account access token")),
              with_status 500 token_asked)
    | TokenRejected e =>
        if quota_check (message_of e)
        then (Returned (ReplyObject
                          (error_object "Limit exceeded per project per minute")),
              with_status 429 token_asked)
        else (Returned (ReplyObject
                          (error_object "Service account authentication failed")),
              with_status 500 token_asked)
    end.
Proof.
  intros Hm. unfold dispatch_of, dispatch. rewrite Hm.
  cbn [default String.eqb Ascii.eqb Bool.eqb].
  unfold vertex_branch, try_catch, await_access_token, bind, emit, message_of.
  destruct (getAccessToken rt) as [token | e].
  - unfold ret at 1. cbv beta iota. destruct (truthy_opt token); reflexivity.
  - unfold throw at 1. cbv beta iota. destruct (quota_check _); reflexivity.
Qed.

Lemma dispatch_other :
  default_to (apiMode req) (VStr "standard") <> VStr "vertex" ->
  default_to (apiMode req) (VStr "standard") <> VStr "standard" ->
  default_to (apiMode req) (VStr "standard") <> VStr "openai" ->
  dispatch_of rt req init_st
  = (Normal {| requestBody := VUndef; apiUrl := ""; out_headers := json_headers |},
     init_st).
Proof.
  intros Hv Hs Ho. apply strict_eq_str_neq in Hv, Hs, Ho.
  unfold dispatch_of, dispatch. now rewrite Hv, Hs, Ho.
Qed.

End Branches.

Lemma value_eq_str_dec (v : Value) (s : string) : v = VStr s \/ v <> VStr s.
Proof.
  destruct (strict_eq_str v s) eqn:E.
  - left. now apply strict_eq_str_spec.
  - right. intros H. apply strict_eq_str_spec in H. congruence.
Qed.

Lemma mode_cases (m : Value) :
  m = VStr "vertex" \/ m = VStr "standard" \/ m = VStr "openai" \/
  (m <> VStr "vertex" /\ m <> VStr "standard" /\ m <> VStr "openai").
Proof.
  destruct (value_eq_str_dec m "vertex"); [auto |].
  destruct (value_eq_str_dec m "standard"); [auto |].
  destruct (value_eq_str_dec m "openai"); [auto |].
  right; right; right. auto.
Qed.

Lemma default_vertex (v : Value) :
  default_to v (VStr "standard") = VStr "vertex" -> v = VStr "vertex".
Proof. destruct v; cbn; intros H; try discriminate; exact H. Qed.

Lemma default_openai (v : Value) :
  default_to v (VStr "standard") = VStr "openai" -> v = VStr "openai".
Proof. destruct v; cbn; intros H; try discriminate; exact H. Qed.

Section Modes.

Variable rt : Runtime.
Variable req : TtsRequest.

Hypothesis text_given : truthy (text req) = true.

Lemma serve_standard :
  default_to (apiMode req) (VStr "standard") = VStr "standard" ->
  serve rt req
  = if truthy_opt (GOOGLE_TTS_API_KEY rt)
    then sent rt req [] (standard_outbound rt req)
    else (error_response 500 "TTS API key not configured", []).
Proof.
  intros Hm. pose proof (dispatch_standard rt req Hm) as E.
  destruct (truthy_opt (GOOGLE_TTS_API_KEY rt)).
  - rewrite (serve_sent rt req text_given _ _ E) by reflexivity.
    unfold sent. cbn [st_status st_headers st_trace init_st app].
    destruct (fetch rt _ _ _); reflexivity.
  - now rewrite (serve_early rt req text_given _ _ E).
Qed.

Lemma serve_openai :
  apiMode req = VStr "openai" ->
  serve rt req
  = if truthy_opt (OPENAI_API_KEY rt)
    then sent rt req [] (openai_outbound rt req)
    else (error_response 500 "OpenAI API key not configured", []).
Proof.
  intros Hm. pose proof (dispatch_openai rt req Hm) as E.
  destruct (truthy_opt (OPENAI_API_KEY rt)).
  - rewrite (serve_sent rt req text_given _ _ E) by reflexivity.
    unfold sent. cbn [st_status st_headers st_trace init_st app].
    destruct (fetch rt _ _ _); reflexivity.
  - now rewrite (serve_early rt req text_given _ _ E).
Qed.

Lemma serve_vertex :
  apiMode req = VStr "vertex" ->
  serve rt req
  = match getAccessToken rt with
    | TokenResolved token =>
        if truthy_opt token
        then sent rt req [EvGetAccessToken]
               (vertex_outbound req (default token ""))
        else (error_response 500 "Failed to get service account access token",
              [EvGetAccessToken])
    | TokenRejected e =>
        (if quota_check (message_of e)
         then error_response 429 "Limit exceeded per project per minute"
         else error_response 500 "Service account authentication failed",
         [EvGetAccessToken])
    end.
Proof.
  intros Hm. pose proof (dispatch_vertex rt req Hm) as E.
  destruct (getAccessToken rt) as [token | e].
  - destruct (truthy_opt token).
    + rewrite (serve_sent rt req text_given _ _ E) by reflexivity.
      unfold sent. cbn [st_status st_headers st_trace token_asked app].
      destruct (fetch rt _ _ _); reflexivity.
    + now rewrite (serve_early rt req text_given _ _ E).
  - destruct (quota_check (message_of e));
      now rewrite (serve_early rt req text_given _ _ E).
Qed.

Lemma serve_other :
  default_to (apiMode req) (VStr "standard") <> VStr "vertex" ->
  default_to (apiMode req) (VStr "standard") <> VStr "standard" ->
  default_to (apiMode req) (VStr "standard") <> VStr "openai" ->
  serve rt req = (error_response 500 "Internal server error", []).
Proof.
  intros Hv Hs Ho. pose proof (dispatch_other rt req Hv Hs Ho) as E.
  now rewrite (serve_blank rt req text_given _ _ E).
Qed.

End Modes.

Section Answers.

Variable rt : Runtime.
Variable req : TtsRequest.

(** The openai branch hands the bytes of the response over as they are. *)
Lemma finish_openai (response : ProviderResponse) (s : St) :
  ok response = true ->
  apiMode req = VStr "openai" ->
  pristine s ->
  finish rt req response s
  = (audio_response (content_type_of (default_to (audioEncoding req) (VStr "MP3")))
       (bytes response), st_trace s).
Proof.
  intros Hok Hm [Hs Hh].
  unfold finish, answer, try_catch, bind. rewrite Hok, Hm. cbn [negb default].
  unfold ret, deliver. cbn [String.eqb Ascii.eqb Bool.eqb].
  unfold bind. rewrite Hok. cbn [negb]. unfold ret.
  cbn. unfold audio_response, audio_headers. now rewrite Hs.
Qed.

(** A body of the Google providers that cannot be read as an object. *)
Lemma finish_unreadable (response : ProviderResponse) (s : St) :
  ok response = true ->
  default_to (apiMode req) (VStr "standard") <> VStr "openai" ->
  json response = None \/ json response = Some VNull ->
  pristine s ->
  finish rt req response s
  = (error_response 500 "Internal server error", st_trace s).
Proof.
  intros Hok Hm Hj [Hs Hh]. apply strict_eq_str_neq in Hm.
  unfold finish, answer, try_catch, bind. rewrite Hok. cbn [negb].
  unfold ret, deliver. rewrite Hm.
  unfold await_json, or_throw, bind, ret.
  destruct Hj as [-> | ->]; cbn; unfold error_response; now rewrite Hh.
Qed.

End Answers.

(* ===================================================================== *)
(** ** Further properties of the handler *)
(* ===================================================================== *)

Lemma sent_trace (rt : Runtime) (req : TtsRequest) (t : list Event)
    (o : Outbound) :
  snd (sent rt req t o) = t ++ [call_of o].
Proof.
  unfold sent. destruct (fetch rt _ _ _); [| reflexivity].
  now rewrite finish_trace by (split; reflexivity).
Qed.

Lemma sent_status (rt : Runtime) (req : TtsRequest) (t : list Event)
    (o : Outbound) :
  status (fst (sent rt req t o)) = 200 \/ status (fst (sent rt req t o)) = 500.
Proof.
  unfold sent. destruct (fetch rt _ _ _) as [response | e]; [| now right].
  assert (pristine {| st_status := None; st_headers := [];
                      st_trace := t ++ [call_of o] |}) as Hp
      by (split; reflexivity).
  destruct (ok response) eqn:Hok.
  - destruct (finish_ok rt req response _ Hok Hp) as [E | [E | [data E]]];
      rewrite E; cbn; auto.
  - rewrite (finish_not_ok rt req response _ Hok Hp). now right.
Qed.

(** X1: whatever the body of the request is, no exception leaves the
    handler, and the reply is either audio (status 200, exactly the two
    headers [Content-Type] and [Content-Length], the latter being the byte
    length of the body) or an error object (status 400, 429 or 500, no
    header set, a body of the form [{"error": msg}]). *)
Theorem reply_is_audio_or_error (rt : Runtime) (received : Value) :
  (forall e s, handler rt received init_st <> (Thrown e, s))
  /\
  let r := fst (serve_body rt received) in
  (status r = 200 /\
   exists data contentType,
     body r = BinaryBody data
     /\ headers r = [("Content-Type", contentType);
                     ("Content-Length", nat_to_string (List.length data))]
     /\ content_length r = Some (List.length data)
     /\ (contentType = "audio/wav" \/ contentType = "audio/mpeg"))
  \/
  ((status r = 400 \/ status r = 429 \/ status r = 500) /\
   headers r = [] /\
   exists msg, body r = JsonBody (VObj [("error", VStr msg)])).
Proof.
  split.
  - intros e s. unfold handler, try_catch, internal_error, bind, set_status.
    destruct (or_throw (destructure received) _ init_st) as [[req | r | e'] s'];
      [destruct (synthesize rt req s') as [[a | r | e'] s''] | |];
      discriminate.
  - cbv zeta. destruct (destructure received) as [req |] eqn:Ed.
    2:{ rewrite (serve_body_undestructurable rt received Ed). right. cbn.
        split; [auto |]. split; [reflexivity |].
        now exists "Internal server error". }
    rewrite (serve_body_destructured rt received req Ed).
    fold (response_of rt req).
    destruct (reply_shapes rt req) as [[code [msg [E Hc]]] | [data E]];
      rewrite E.
    + right. cbn. split; [exact Hc |]. split; [reflexivity |]. now exists msg.
    + left. cbn. split; [reflexivity |].
      exists data,
        (content_type_of (default_to (audioEncoding req) (VStr "MP3"))).
      repeat split.
      * unfold content_length, header. cbn. apply nat_to_string_reads_back.
      * unfold content_type_of. destruct (strict_eq_str _ _); auto.
Qed.

Lemma calls_shape (rt : Runtime) (req : TtsRequest) :
  exists asked called,
    calls_of rt req = asked ++ called
    /\ (asked = [] \/
        (asked = [EvGetAccessToken] /\ apiMode req = VStr "vertex"))
    /\ (called = [] \/
        exists url h p, called = [EvFetch url h p] /\ url <> "").
Proof.
  unfold calls_of.
  destruct (truthy (text req)) eqn:Ht.
  2:{ rewrite (serve_no_text rt req Ht). exists [], []. cbn. auto. }
  destruct (mode_cases (default_to (apiMode req) (VStr "standard")))
    as [Hm | [Hm | [Hm | [Hv [Hs Ho]]]]].
  - apply default_vertex in Hm. rewrite (serve_vertex rt req Ht Hm).
    destruct (getAccessToken rt) as [token | e].
    + destruct (truthy_opt token).
      * rewrite sent_trace.
        exists [EvGetAccessToken],
          [call_of (vertex_outbound req (default token ""))].
        split; [reflexivity |]. split; [auto |]. right.
        do 3 eexists. split; [reflexivity | cbv; discriminate].
      * exists [EvGetAccessToken], []. cbn. auto.
    + exists [EvGetAccessToken], []. cbn. auto.
  - rewrite (serve_standard rt req Ht Hm).
    destruct (truthy_opt (GOOGLE_TTS_API_KEY rt)).
    + rewrite sent_trace. exists [], [call_of (standard_outbound rt req)].
      split; [reflexivity |]. split; [auto |]. right.
      do 3 eexists. split; [reflexivity | cbv; discriminate].
    + exists [], []. cbn. auto.
  - apply default_openai in Hm. rewrite (serve_openai rt req Ht Hm).
    destruct (truthy_opt (OPENAI_API_KEY rt)).
    + rewrite sent_trace. exists [], [call_of (openai_outbound rt req)].
      split; [reflexivity |]. split; [auto |]. right.
      do 3 eexists. split; [reflexivity | cbv; discriminate].
    + exists [], []. cbn. auto.
  - rewrite (serve_other rt req Ht Hv Hs Ho). exists [], []. cbn. auto.
Qed.

(** X2: a request makes at most one token request and at most one
    synthesis call, in that order; the token is asked only in [vertex]
    mode, and a synthesis call never goes to an empty URL. *)
Theorem calls_are_bounded (rt : Runtime) (req : TtsRequest) :
  exists asked called,
    calls_of rt req = asked ++ called
    /\ (asked = [] \/
        (asked = [EvGetAccessToken] /\ apiMode req = VStr "vertex"))
    /\ (called = [] \/
        exists url h p, called = [EvFetch url h p] /\ url <> "").
Proof. exact (calls_shape rt req). Qed.

(** X3: the only way to a 429 is a [vertex] request whose token
    acquisition failed with an [Error] whose message matches the quota
    check; no synthesis provider has been called then. *)
Theorem status_429_is_a_token_failure (rt : Runtime) (req : TtsRequest) :
  status (response_of rt req) = 429 ->
  apiMode req = VStr "vertex"
  /\ (exists m, getAccessToken rt = TokenRejected (ThrowError m)
                /\ quota_check m = true)
  /\ serve rt req
     = (error_response 429 "Limit exceeded per project per minute",
        [EvGetAccessToken]).
Proof.
  unfold response_of. intros H.
  destruct (truthy (text req)) eqn:Ht.
  2:{ rewrite (serve_no_text rt req Ht) in H. discriminate. }
  destruct (mode_cases (default_to (apiMode req) (VStr "standard")))
    as [Hm | [Hm | [Hm | [Hv [Hs Ho]]]]].
  - apply default_vertex in Hm. rewrite (serve_vertex rt req Ht Hm) in *.
    split; [exact Hm |].
    destruct (getAccessToken rt) as [token | e].
    + destruct (truthy_opt token); [| discriminate].
      destruct (sent_status rt req [EvGetAccessToken]
                  (vertex_outbound req (default token ""))); congruence.
    + destruct e as [m |].
      * cbn [message_of] in *. destruct (quota_check m) eqn:Hq;
          [| discriminate].
        split; [now exists m | reflexivity].
      * discriminate.
  - rewrite (serve_standard rt req Ht Hm) in H.
    destruct (truthy_opt (GOOGLE_TTS_API_KEY rt)); [| discriminate].
    destruct (sent_status rt req [] (standard_outbound rt req)); congruence.
  - apply default_openai in Hm. rewrite (serve_openai rt req Ht Hm) in H.
    destruct (truthy_opt (OPENAI_API_KEY rt)); [| discriminate].
    destruct (sent_status rt req [] (openai_outbound rt req)); congruence.
  - rewrite (serve_other rt req Ht Hv Hs Ho) in H. discriminate.
Qed.

Lemma status_429_is_a_token_failure_witness :
  serve (Demo.unconfigured (ThrowError "Quota exceeded"))
    (Demo.say (Some "halo") (Some "vertex"))
  = (error_response 429 "Limit exceeded per project per minute",
     [EvGetAccessToken]).
Proof.
  apply (status_429_is_a_token_failure
           (Demo.unconfigured (ThrowError "Quota exceeded"))
           (Demo.say (Some "halo") (Some "vertex")) eq_refl).
Defined.

Lemma status_400_after (rt : Runtime) (req : TtsRequest) :
  status (response_of rt req) = 400 <-> truthy (text req) = false.
Proof.
  unfold response_of. split.
  - intros H. destruct (truthy (text req)) eqn:Ht; [| reflexivity].
    exfalso.
    destruct (mode_cases (default_to (apiMode req) (VStr "standard")))
      as [Hm | [Hm | [Hm | [Hv [Hs Ho]]]]].
    + apply default_vertex in Hm. rewrite (serve_vertex rt req Ht Hm) in H.
      destruct (getAccessToken rt) as [token | e].
      * destruct (truthy_opt token); [| discriminate].
        destruct (sent_status rt req [EvGetAccessToken]
                    (vertex_outbound req (default token ""))); congruence.
      * destruct (quota_check (message_of e)); discriminate.
    + rewrite (serve_standard rt req Ht Hm) in H.
      destruct (truthy_opt (GOOGLE_TTS_API_KEY rt)); [| discriminate].
      destruct (sent_status rt req [] (standard_outbound rt req)); congruence.
    + apply default_openai in Hm. rewrite (serve_openai rt req Ht Hm) in H.
      destruct (truthy_opt (OPENAI_API_KEY rt)); [| discriminate].
      destruct (sent_status rt req [] (openai_outbound rt req)); congruence.
    + rewrite (serve_other rt req Ht Hv Hs Ho) in H. discriminate.
  - intros Ht. now rewrite (serve_no_text rt req Ht).
Qed.

(** X4: a reply has status 400 exactly when the body is neither
    [undefined] nor [null] and its [text] is falsy (absent, the empty
    string, [null], [false], zero or NaN). *)
Theorem status_400_iff_no_text (rt : Runtime) (received : Value) :
  status (fst (serve_body rt received)) = 400 <->
  (received <> VUndef /\ received <> VNull
   /\ truthy (get_opt received "text") = false).
Proof.
  destruct (destructure received) as [req |] eqn:Ed.
  - assert (received <> VUndef /\ received <> VNull) as [Hu Hn]
        by (split; intros ->; discriminate).
    destruct (destructure_object received Hu Hn) as [req' [E' [Et _]]].
    assert (req' = req) as -> by congruence.
    rewrite (serve_body_destructured rt received req Ed), <- Et.
    fold (response_of rt req). rewrite status_400_after. tauto.
  - rewrite (serve_body_undestructurable rt received Ed). cbn. split.
    + discriminate.
    + intros [Hu [Hn _]]. destruct received; try discriminate;
        [now elim Hu | now elim Hn].
Qed.

(** X5: when the openai provider answers [ok], the reply is 200 with the
    bytes of the provider's body unchanged, their length as
    [Content-Length] and the content type of the request's encoding; the
    body is never read as JSON. *)
Theorem openai_bytes_pass_through (rt : Runtime) (req : TtsRequest)
    (response : ProviderResponse) :
  truthy (text req) = true ->
  apiMode req = VStr "openai" ->
  truthy_opt (OPENAI_API_KEY rt) = true ->
  fetch rt (apiUrl (openai_outbound rt req)) (out_headers (openai_outbound rt req))
    (JSON_stringify (requestBody (openai_outbound rt req)))
  = FetchResolved response ->
  ok response = true ->
  serve rt req
  = ({| status := 200;
        headers :=
          [("Content-Type",
            if strict_eq_str (default_to (audioEncoding req) (VStr "MP3"))
                 "LINEAR16"
            then "audio/wav" else "audio/mpeg");
           ("Content-Length", nat_to_string (List.length (bytes response)))];
        body := BinaryBody (bytes response) |},
     [call_of (openai_outbound rt req)]).
Proof.
  intros Ht Hm Hk Hf Hok.
  rewrite (serve_openai rt req Ht Hm), Hk. unfold sent. rewrite Hf.
  now rewrite (finish_openai rt req response _ Hok Hm) by (split; reflexivity).
Qed.

Lemma openai_bytes_pass_through_witness :
  response_of (Demo.answering (Demo.provider_raw [x52; x49; x46; x46]))
    (Demo.say_as (Some "openai") (Some "LINEAR16"))
  = {| status := 200;
       headers := [("Content-Type", "audio/wav"); ("Content-Length", "4")];
       body := BinaryBody [x52; x49; x46; x46] |}.
Proof.
  unfold response_of.
  now rewrite (openai_bytes_pass_through
                 (Demo.answering (Demo.provider_raw [x52; x49; x46; x46]))
                 (Demo.say_as (Some "openai") (Some "LINEAR16"))
                 (Demo.provider_raw [x52; x49; x46; x46])
                 eq_refl eq_refl eq_refl eq_refl eq_refl).
Defined.

(** X6: an openai request with a key makes one call, to the speech
    endpoint, with the key in the [Authorization] header and nowhere else.
    The body is exactly: the fixed model and instructions, the text as
    [input], [voice] when the request has a [voiceName], [response_format]
    ["wav"] when the encoding is ["LINEAR16"] and ["mp3"] otherwise, and
    [speed] (also at the default rate); it has neither [pitch] nor
    [languageCode]. *)
Theorem openai_payload (rt : Runtime) (req : TtsRequest) (key : string) :
  truthy (text req) = true ->
  apiMode req = VStr "openai" ->
  OPENAI_API_KEY rt = Some key ->
  key <> "" ->
  calls_of rt req
  = [EvFetch "https://api.openai.com/v1/audio/speech"
       [("Content-Type", "application/json");
        ("Authorization", ("Bearer " ++ key)%string)]
       (Some (VObj
                ([("model", VStr "gpt-4o-mini-tts");
                  ("instructions", VStr indonesianInstructions);
                  ("input", stringify_tree (text req))]
                 ++ field "voice" (voiceName req)
                 ++ [("response_format",
                      VStr (if strict_eq_str
                                 (default_to (audioEncoding req) (VStr "MP3"))
                                 "LINEAR16"
                            then "wav" else "mp3"));
                     ("speed",
                      stringify_tree
                        (default_to (speakingRate req) (VNum one)))])))].
Proof.
  intros Ht Hm Hk Hne. apply String.eqb_neq in Hne.
  unfold calls_of. rewrite (serve_openai rt req Ht Hm), Hk.
  cbn [truthy_opt]. unfold truthy_str. rewrite Hne. cbn [negb].
  rewrite sent_trace. unfold call_of, openai_outbound, openai_requestBody.
  rewrite Hk.
  cbn [app apiUrl out_headers requestBody default JSON_stringify].
  rewrite stringify_tree_obj, !stringify_props_cons, stringify_props_nil.
  rewrite (field_defined "input" (text req) (truthy_defined _ Ht)).
  rewrite (field_defined "speed" (default_to (speakingRate req) (VNum one)))
    by (apply default_to_defined; discriminate).
  reflexivity.
Qed.

Lemma openai_payload_witness :
  calls_of (Demo.answering (Demo.provider_raw []))
    (Demo.say_as (Some "openai") (Some "LINEAR16"))
  = [EvFetch "https://api.openai.com/v1/audio/speech"
       [("Content-Type", "application/json");
        ("Authorization", "Bearer o-key")]
       (Some (VObj [("model", VStr "gpt-4o-mini-tts");
                    ("instructions", VStr indonesianInstructions);
                    ("input", VStr "halo");
                    ("voice", VStr "Kore");
                    ("response_format", VStr "wav");
                    ("speed", VNum one)]))].
Proof.
  assert ("o-key" <> "") as Hne by discriminate.
  exact (openai_payload (Demo.answering (Demo.provider_raw []))
           (Demo.say_as (Some "openai") (Some "LINEAR16")) "o-key"
           eq_refl eq_refl eq_refl Hne).
Defined.

(** X7: a standard request with a key makes one call, to the synthesis
    endpoint with the key as the [key] query parameter and no
    [Authorization] header.  Its body carries the text, the language code
    (["id-ID"] when the request has none), [name] exactly when [voiceName]
    is truthy and [modelName] exactly when [modelName] is truthy, and
    the request's encoding (["MP3"] when absent). *)
Theorem standard_payload (rt : Runtime) (req : TtsRequest) (key : string) :
  truthy (text req) = true ->
  default_to (apiMode req) (VStr "standard") = VStr "standard" ->
  GOOGLE_TTS_API_KEY rt = Some key ->
  key <> "" ->
  let pitch := default_to (pitch req) (VNum zero) in
  let speakingRate := default_to (speakingRate req) (VNum one) in
  calls_of rt req
  = [EvFetch
       ("https://texttospeech.googleapis.com/v1/text:synthesize?key=" ++ key)
       [("Content-Type", "application/json")]
       (Some (VObj [("input", VObj [("text", stringify_tree (text req))]);
                    ("voice",
                     VObj ([("languageCode",
                             stringify_tree
                               (default_to (languageCode req) (VStr "id-ID")))]
                           ++ (if truthy (voiceName req)
                               then [("name", stringify_tree (voiceName req))]
                               else [])
                           ++ (if truthy (modelName req)
                               then [("modelName",
                                      stringify_tree (modelName req))]
                               else [])));
                    ("audioConfig",
                     VObj ([("audioEncoding",
                             stringify_tree
                               (default_to (audioEncoding req) (VStr "MP3")))]
                           ++ (if strict_eq_num pitch zero then []
                               else [("pitch", stringify_tree pitch)])
                           ++ (if strict_eq_num speakingRate one then []
                               else [("speakingRate",
                                      stringify_tree speakingRate)])))]))].
Proof.
  intros Ht Hm Hk Hne. cbv zeta. apply String.eqb_neq in Hne.
  unfold calls_of. rewrite (serve_standard rt req Ht Hm), Hk.
  cbn [truthy_opt]. unfold truthy_str. rewrite Hne. cbn [negb].
  rewrite sent_trace.
  unfold call_of, standard_outbound, standard_requestBody, standard_voice,
    standard_audioConfig.
  rewrite Hk. cbn [app apiUrl out_headers requestBody default JSON_stringify].
  assert (forall l, stringify_tree (VObj l) = VObj (stringify_props l))
    as Hobj by reflexivity.
  assert (default_to (pitch req) (VNum zero) <> VUndef) as Hp
      by (apply default_to_defined; discriminate).
  assert (default_to (speakingRate req) (VNum one) <> VUndef) as Hr
      by (apply default_to_defined; discriminate).
  destruct (truthy (voiceName req)) eqn:Hv;
    destruct (truthy (modelName req)) eqn:Hn;
    destruct (strict_eq_num (default_to (pitch req) (VNum zero)) zero);
    destruct (strict_eq_num (default_to (speakingRate req) (VNum one)) one);
    cbn [app negb];
    repeat (progress
              (rewrite ?Hobj, ?stringify_props_cons, ?stringify_props_nil;
               cbn [field app]));
    rewrite (field_defined "text" (text req) (truthy_defined _ Ht));
    rewrite (field_defined "languageCode"
               (default_to (languageCode req) (VStr "id-ID")))
      by (apply default_to_defined; discriminate);
    rewrite (field_defined "audioEncoding"
               (default_to (audioEncoding req) (VStr "MP3")))
      by (apply default_to_defined; discriminate);
    rewrite ?(field_defined "name" _ (truthy_defined _ Hv)),
      ?(field_defined "modelName" _ (truthy_defined _ Hn)),
      ?(field_defined "pitch" _ Hp), ?(field_defined "speakingRate" _ Hr);
    reflexivity.
Qed.

Lemma standard_payload_witness :
  calls_of (Demo.answering (Demo.provider_audio (VStr "aGFsbw==")))
    (Demo.say_as None None)
  = [EvFetch
       "https://texttospeech.googleapis.com/v1/text:synthesize?key=g-key"
       [("Content-Type", "application/json")]
       (Some (VObj [("input", VObj [("text", VStr "halo")]);
                    ("voice", VObj [("languageCode", VStr "id-ID");
                                    ("name", VStr "Kore")]);
                    ("audioConfig", VObj [("audioEncoding", VStr "MP3")])]))].
Proof.
  assert ("g-key" <> "") as Hne by discriminate.
  exact (standard_payload
           (Demo.answering (Demo.provider_audio (VStr "aGFsbw==")))
           (Demo.say_as None None) "g-key" eq_refl eq_refl eq_refl Hne).
Defined.

(** X8: a vertex request that obtained a token asks for it first and then
    makes one call to the synthesis endpoint, without a key in the URL and
    with the token in the [Authorization] header.  The voice always names
    the model ["gemini-2.5-flash-tts"], whatever [modelName] the request
    has, and has [name] exactly when the request has a [voiceName], an
    empty one included. *)
Theorem vertex_payload (rt : Runtime) (req : TtsRequest) (token : string) :
  truthy (text req) = true ->
  apiMode req = VStr "vertex" ->
  getAccessToken rt = TokenResolved (Some token) ->
  token <> "" ->
  calls_of rt req
  = [EvGetAccessToken;
     EvFetch "https://texttospeech.googleapis.com/v1/text:synthesize"
       [("Content-Type", "application/json");
        ("Authorization", ("Bearer " ++ token)%string)]
       (Some (VObj [("input", VObj [("text", stringify_tree (text req))]);
                    ("voice",
                     VObj ([("languageCode",
                             stringify_tree
                               (default_to (languageCode req) (VStr "id-ID")));
                            ("modelName", VStr "gemini-2.5-flash-tts")]
                           ++ field "name" (voiceName req)));
                    ("audioConfig",
                     VObj [("audioEncoding", VStr "LINEAR16")])]))].
Proof.
  intros Ht Hm Hg Hne. apply String.eqb_neq in Hne.
  unfold calls_of. rewrite (serve_vertex rt req Ht Hm), Hg.
  cbn [truthy_opt]. unfold truthy_str. rewrite Hne. cbn [negb].
  rewrite sent_trace. unfold call_of, vertex_outbound, vertex_requestBody.
  cbn [app apiUrl out_headers requestBody default JSON_stringify].
  assert (forall l, stringify_tree (VObj l) = VObj (stringify_props l))
    as Hobj by reflexivity.
  repeat (progress
            (rewrite ?Hobj, ?stringify_props_cons, ?stringify_props_nil;
             cbn [field app])).
  rewrite (field_defined "text" (text req) (truthy_defined _ Ht)).
  rewrite (field_defined "languageCode"
             (default_to (languageCode req) (VStr "id-ID")))
    by (apply default_to_defined; discriminate).
  cbn [app]. rewrite !app_nil_r. reflexivity.
Qed.

Lemma vertex_payload_witness :
  calls_of (Demo.answering (Demo.provider_audio (VStr "UklGRg==")))
    (Demo.say (Some "halo") (Some "vertex"))
  = [EvGetAccessToken;
     EvFetch "https://texttospeech.googleapis.com/v1/text:synthesize"
       [("Content-Type", "application/json");
        ("Authorization", "Bearer ya29.token")]
       (Some (VObj [("input", VObj [("text", VStr "halo")]);
                    ("voice", VObj [("languageCode", VStr "id-ID");
                                    ("modelName", VStr "gemini-2.5-flash-tts")]);
                    ("audioConfig",
                     VObj [("audioEncoding", VStr "LINEAR16")])]))].
Proof.
  assert ("ya29.token" <> "") as Hne by discriminate.
  exact (vertex_payload
           (Demo.answering (Demo.provider_audio (VStr "UklGRg==")))
           (Demo.say (Some "halo") (Some "vertex")) "ya29.token"
           eq_refl eq_refl eq_refl Hne).
Defined.

Section Noninterference.

Variable rt : Runtime.
Variables req req' : TtsRequest.

Lemma finish_agrees (response : ProviderResponse) (s : St) :
  default_to (apiMode req') (VStr "standard") = default_to (apiMode req) (VStr "standard") ->
  default_to (audioEncoding req') (VStr "MP3") = default_to (audioEncoding req) (VStr "MP3") ->
  finish rt req' response s = finish rt req response s.
Proof. intros Hm He. unfold finish. now rewrite Hm, He. Qed.

Lemma sent_agrees (t : list Event) (o : Outbound) :
  default_to (apiMode req') (VStr "standard") = default_to (apiMode req) (VStr "standard") ->
  default_to (audioEncoding req') (VStr "MP3") = default_to (audioEncoding req) (VStr "MP3") ->
  sent rt req' t o = sent rt req t o.
Proof.
  intros Hm He. unfold sent. destruct (fetch rt _ _ _); [| reflexivity].
  now apply finish_agrees.
Qed.

End Noninterference.

(** X9: in [vertex] mode the request's [modelName], [pitch] and
    [speakingRate] change nothing: two requests that agree on the other
    properties get the same reply after the same calls; and what is sent
    does not depend on [audioEncoding] either. *)
Theorem vertex_ignores_tuning (rt : Runtime) (req req' : TtsRequest) :
  truthy (text req) = true ->
  apiMode req = VStr "vertex" ->
  apiMode req' = VStr "vertex" ->
  text req' = text req ->
  languageCode req' = languageCode req ->
  voiceName req' = voiceName req ->
  calls_of rt req' = calls_of rt req
  /\ (audioEncoding req' = audioEncoding req -> serve rt req' = serve rt req).
Proof.
  intros Ht Hm Hm' Hx Hl Hv.
  assert (truthy (text req') = true) as Ht' by now rewrite Hx.
  assert (forall token, vertex_outbound req' token = vertex_outbound req token)
    as Ho by (intros; unfold vertex_outbound; now rewrite Hx, Hl, Hv).
  unfold calls_of.
  rewrite (serve_vertex rt req Ht Hm), (serve_vertex rt req' Ht' Hm').
  destruct (getAccessToken rt) as [token | e]; [| split; reflexivity].
  destruct (truthy_opt token); [| split; reflexivity].
  rewrite Ho. split.
  - now rewrite !sent_trace.
  - intros He. apply sent_agrees; [now rewrite Hm, Hm' | now rewrite He].
Qed.

Lemma vertex_ignores_tuning_witness :
  serve (Demo.answering (Demo.provider_audio (VStr "UklGRg==")))
    {| text := VStr "halo"; apiMode := VStr "vertex"; languageCode := VUndef;
       modelName := VStr "chirp"; voiceName := VUndef; audioEncoding := VUndef;
       pitch := VNum five; speakingRate := VNum five |}
  = serve (Demo.answering (Demo.provider_audio (VStr "UklGRg==")))
      (Demo.say (Some "halo") (Some "vertex")).
Proof.
  apply (vertex_ignores_tuning
           (Demo.answering (Demo.provider_audio (VStr "UklGRg==")))
           (Demo.say (Some "halo") (Some "vertex"))
           {| text := VStr "halo"; apiMode := VStr "vertex";
              languageCode := VUndef; modelName := VStr "chirp";
              voiceName := VUndef; audioEncoding := VUndef;
              pitch := VNum five; speakingRate := VNum five |}
           eq_refl eq_refl eq_refl eq_refl eq_refl eq_refl).
  reflexivity.
Defined.

(** X10: in [openai] mode the request's [languageCode], [modelName] and
    [pitch] change nothing: two requests that agree on the other
    properties get the same reply after the same call. *)
Theorem openai_ignores_language_and_pitch (rt : Runtime)
    (req req' : TtsRequest) :
  truthy (text req) = true ->
  apiMode req = VStr "openai" ->
  apiMode req' = VStr "openai" ->
  text req' = text req ->
  voiceName req' = voiceName req ->
  audioEncoding req' = audioEncoding req ->
  speakingRate req' = speakingRate req ->
  serve rt req' = serve rt req.
Proof.
  intros Ht Hm Hm' Hx Hv He Hr.
  assert (truthy (text req') = true) as Ht' by now rewrite Hx.
  assert (openai_outbound rt req' = openai_outbound rt req) as Ho
      by (unfold openai_outbound; now rewrite Hx, Hv, He, Hr).
  rewrite (serve_openai rt req Ht Hm), (serve_openai rt req' Ht' Hm'), Ho.
  destruct (truthy_opt (OPENAI_API_KEY rt)); [| reflexivity].
  apply sent_agrees; [now rewrite Hm, Hm' | now rewrite He].
Qed.

Lemma openai_ignores_language_and_pitch_witness :
  serve (Demo.answering (Demo.provider_raw [x52; x49]))
    {| text := VStr "halo"; apiMode := VStr "openai";
       languageCode := VStr "en-US"; modelName := VStr "tts-1";
       voiceName := VUndef; audioEncoding := VUndef;
       pitch := VNum five; speakingRate := VUndef |}
  = serve (Demo.answering (Demo.provider_raw [x52; x49]))
      (Demo.say (Some "halo") (Some "openai")).
Proof.
  apply (openai_ignores_language_and_pitch
           (Demo.answering (Demo.provider_raw [x52; x49]))
           (Demo.say (Some "halo") (Some "openai"))
           {| text := VStr "halo"; apiMode := VStr "openai";
              languageCode := VStr "en-US"; modelName := VStr "tts-1";
              voiceName := VUndef; audioEncoding := VUndef;
              pitch := VNum five; speakingRate := VUndef |}
           eq_refl eq_refl eq_refl eq_refl eq_refl eq_refl eq_refl).
Defined.

(** X11: a vertex request for which the identity provider resolves
    without a usable token ([null], [undefined] or empty) is answered 500
    [{"error":"Failed to get service account access token"}]; the token
    has been asked for and no synthesis call is made. *)
Theorem vertex_without_token (rt : Runtime) (req : TtsRequest)
    (token : option string) :
  truthy (text req) = true ->
  apiMode req = VStr "vertex" ->
  getAccessToken rt = TokenResolved token ->
  token = None \/ token = Some "" ->
  serve rt req
  = (error_response 500 "Failed to get service account access token",
     [EvGetAccessToken]).
Proof.
  intros Ht Hm Hg Hn. apply truthy_opt_false in Hn.
  now rewrite (serve_vertex rt req Ht Hm), Hg, Hn.
Qed.

Lemma vertex_without_token_witness :
  serve Demo.tokenless (Demo.say (Some "halo") (Some "vertex"))
  = (error_response 500 "Failed to get service account access token",
     [EvGetAccessToken]).
Proof.
  apply (vertex_without_token Demo.tokenless
           (Demo.say (Some "halo") (Some "vertex"))
           (Some "") eq_refl eq_refl eq_refl).
  right; reflexivity.
Defined.

(** X12: a vertex request whose token acquisition fails never reaches the
    synthesis provider.  Unless the failure is classified as quota, the
    reply is 500 with the fixed message
    ["Service account authentication failed"], whatever the identity
    provider said; a rejection with a value that is not an [Error] is
    always answered so. *)
Theorem token_failure_is_terminal (rt : Runtime) (req : TtsRequest) (e : Exn) :
  truthy (text req) = true ->
  apiMode req = VStr "vertex" ->
  getAccessToken rt = TokenRejected e ->
  calls_of rt req = [EvGetAccessToken]
  /\ (quota_check (message_of e) = false ->
      response_of rt req
      = error_response 500 "Service account authentication failed")
  /\ (e = ThrowOther ->
      response_of rt req
      = error_response 500 "Service account authentication failed").
Proof.
  intros Ht Hm Hg. unfold calls_of, response_of.
  rewrite (serve_vertex rt req Ht Hm), Hg. split; [reflexivity |]. split.
  - intros Hq. now rewrite Hq.
  - intros ->. reflexivity.
Qed.

Lemma token_failure_is_terminal_witness :
  serve (Demo.unconfigured (ThrowError "invalid_grant: account not found"))
    (Demo.say (Some "halo") (Some "vertex"))
  = (error_response 500 "Service account authentication failed",
     [EvGetAccessToken]).
Proof.
  destruct (token_failure_is_terminal
              (Demo.unconfigured (ThrowError "invalid_grant: account not found"))
              (Demo.say (Some "halo") (Some "vertex"))
              (ThrowError "invalid_grant: account not found")
              eq_refl eq_refl eq_refl) as [Hc [Hr _]].
  unfold calls_of in Hc. unfold response_of in Hr.
  specialize (Hr eq_refl).
  destruct (serve _ _) as [r c]. cbn in Hc, Hr. now subst.
Defined.

Section AfterTheCall.

Variable rt : Runtime.
Variable req : TtsRequest.

Lemma rejected_call (url : string) (h : Headers) (p : option Value) (e : Exn) :
  In (EvFetch url h p) (calls_of rt req) ->
  fetch rt url h p = FetchRejected e ->
  serve rt req
  = (error_response 500 "Internal server error", calls_of rt req).
Proof.
  intros Hin Hf. unfold calls_of in *.
  destruct (serve_cases rt req)
    as [[code [msg [t [E [Hnf _]]]]]
       | [[t [u [h' [p' [e' [E [Hnf Hr]]]]]]]
         | [t [u [h' [p' [r [E [Hnf Hr]]]]]]]]].
  - rewrite E in Hin. cbn in Hin. now apply no_fetch_in in Hin.
  - now rewrite E.
  - assert (pristine {| st_status := None; st_headers := [];
                        st_trace := t ++ [EvFetch u h' p'] |}) as Hp
        by (split; reflexivity).
    rewrite E, finish_trace in Hin by exact Hp. cbn in Hin.
    apply in_app_or in Hin.
    destruct Hin as [Hin | [Heq | []]]; [now apply no_fetch_in in Hin |].
    injection Heq as -> -> ->. congruence.
Qed.

End AfterTheCall.

(** X13: when the call to a provider fails (the promise of [fetch]
    rejects), the reply is 500 [{"error":"Internal server error"}] and the
    call is not repeated. *)
Theorem fetch_rejection_is_500 (rt : Runtime) (req : TtsRequest)
    (url : string) (h : Headers) (p : option Value) (e : Exn) :
  In (EvFetch url h p) (calls_of rt req) ->
  fetch rt url h p = FetchRejected e ->
  response_of rt req = error_response 500 "Internal server error"
  /\ List.length (filter is_fetch (calls_of rt req)) = 1.
Proof.
  intros Hin Hf. split.
  - unfold response_of. now rewrite (rejected_call rt req url h p e Hin Hf).
  - destruct (calls_shape rt req) as [asked [called [E [Ha Hc]]]].
    rewrite E in *.
    assert (filter is_fetch asked = []) as Hfa
        by (destruct Ha as [-> | [-> _]]; reflexivity).
    rewrite filter_app, Hfa. cbn [app].
    destruct Hc as [-> | [u [h' [p' [-> _]]]]]; [| reflexivity].
    rewrite app_nil_r in Hin.
    destruct Ha as [-> | [-> _]]; cbn in Hin; intuition discriminate.
Qed.

Lemma fetch_rejection_is_500_witness :
  response_of Demo.offline (Demo.say (Some "halo") (Some "vertex"))
  = error_response 500 "Internal server error"
  /\ List.length (filter is_fetch
                    (calls_of Demo.offline
                       (Demo.say (Some "halo") (Some "vertex")))) = 1.
Proof.
  eapply (fetch_rejection_is_500 Demo.offline
            (Demo.say (Some "halo") (Some "vertex")) _ _ _
            (ThrowError "ECONNREFUSED")).
  - cbv. right; left; reflexivity.
  - reflexivity.
Defined.

Section Unreadable.

Variable rt : Runtime.
Variable req : TtsRequest.

Lemma reject_not_ok_exn (response : ProviderResponse) (s : St) :
  exists e, forall A, @reject_not_ok rt A response s = (Thrown e, s).
Proof.
  unfold reject_not_ok, await_json, or_throw, bind, throw, ret.
  destruct (json response) as [errorData|]; [| eauto].
  destruct (get errorData "error") as [error|]; [| eauto].
  destruct (quota_check_value _) as [[|]|]; eauto.
Qed.

End Unreadable.

Lemma string_app_assoc (a b c : string) :
  ((a ++ b) ++ c = a ++ b ++ c)%string.
Proof. induction a as [|x a IH]; simpl; [reflexivity | now rewrite IH]. Qed.

Lemma occurs_in_wrapped (needle m before after : string) :
  occurs_in needle m -> occurs_in needle (before ++ m ++ after).
Proof.
  intros [p [q ->]]. exists (before ++ p)%string, (q ++ after)%string.
  now rewrite !string_app_assoc.
Qed.

(** X14: when a Google provider answers [ok] with a body that is not JSON,
    or with the JSON value [null], the reply is 500
    [{"error":"Internal server error"}]. *)
Theorem unreadable_success_is_500 (rt : Runtime) (req : TtsRequest)
    (url : string) (h : Headers) (p : option Value)
    (response : ProviderResponse) :
  In (EvFetch url h p) (calls_of rt req) ->
  fetch rt url h p = FetchResolved response ->
  ok response = true ->
  default_to (apiMode req) (VStr "standard") <> VStr "openai" ->
  json response = None \/ json response = Some VNull ->
  response_of rt req = error_response 500 "Internal server error".
Proof.
  intros Hin Hf Hok Hm Hj.
  destruct (served_by rt req url h p response Hin Hf) as [s [Hp E]].
  unfold response_of.
  now rewrite E, (finish_unreadable rt req response s Hok Hm Hj Hp).
Qed.

Lemma unreadable_success_is_500_witness :
  response_of (Demo.answering (Demo.provider_raw [x3c; x68; x31; x3e]))
    (Demo.say (Some "halo") (Some "standard"))
  = error_response 500 "Internal server error".
Proof.
  eapply (unreadable_success_is_500
            (Demo.answering (Demo.provider_raw [x3c; x68; x31; x3e]))
            (Demo.say (Some "halo") (Some "standard")) _ _ _
            (Demo.provider_raw [x3c; x68; x31; x3e])).
  - cbv. left; reflexivity.
  - reflexivity.
  - reflexivity.
  - discriminate.
  - left; reflexivity.
Defined.

(** X15: whatever the body of a provider response that is not [ok] is
    (not JSON, [null], without [error.message], a message that is not a
    string), the reply is 500 [{"error":"Internal server error"}]; this
    holds in [openai] mode too, where the bytes of such a response are
    never returned.  With no usable [error.message] the error raised
    inside the handler has the fallback message
    ["TTS API request failed"]. *)
Theorem not_ok_is_always_500 (rt : Runtime) (req : TtsRequest)
    (url : string) (h : Headers) (p : option Value)
    (response : ProviderResponse) :
  In (EvFetch url h p) (calls_of rt req) ->
  fetch rt url h p = FetchResolved response ->
  ok response = false ->
  response_of rt req = error_response 500 "Internal server error"
  /\ (forall errorData error,
         json response = Some errorData ->
         get errorData "error" = Some error ->
         truthy (get_opt error "message") = false ->
         forall A s,
           @reject_not_ok rt A response s
           = (Thrown (ThrowError "TTS API request failed"), s)).
Proof.
  intros Hin Hf Hok. split.
  - exact (not_ok_is_internal_error rt req url h p response Hin Hf Hok).
  - intros errorData error Hj Hg Hfalsy A s.
    rewrite (reject_not_ok_str rt A response "TTS API request failed" s).
    + reflexivity.
    + exists errorData, error. repeat split; try assumption.
      unfold or_else. now rewrite Hfalsy.
Qed.

Lemma not_ok_is_always_500_witness :
  response_of
    (Demo.answering {| ok := false; json := Some (VObj []); bytes := [x52] |})
    (Demo.say (Some "halo") (Some "openai"))
  = error_response 500 "Internal server error".
Proof.
  eapply (not_ok_is_always_500
            (Demo.answering
               {| ok := false; json := Some (VObj []); bytes := [x52] |})
            (Demo.say (Some "halo") (Some "openai")) _ _ _
            {| ok := false; json := Some (VObj []); bytes := [x52] |}).
  - cbv. left; reflexivity.
  - reflexivity.
  - reflexivity.
Defined.

(** X16: a reply has status 200 only after exactly one synthesis call,
    made last, that the provider answered with [ok].  In [openai] mode its
    body is then the provider's bytes; in the other modes the provider's
    JSON had a truthy [audioContent]. *)
Theorem audio_comes_from_ok_provider (rt : Runtime) (req : TtsRequest) :
  status (response_of rt req) = 200 ->
  exists asked url h p response,
    calls_of rt req = asked ++ [EvFetch url h p]
    /\ forallb (fun ev => negb (is_fetch ev)) asked = true
    /\ fetch rt url h p = FetchResolved response
    /\ ok response = true
    /\ (apiMode req = VStr "openai" ->
        body (response_of rt req) = BinaryBody (bytes response))
    /\ (default_to (apiMode req) (VStr "standard") <> VStr "openai" ->
        exists data audioContent,
          json response = Some data
          /\ get data "audioContent" = Some audioContent
          /\ truthy audioContent = true).
Proof.
  unfold response_of, calls_of. intros H200.
  destruct (serve_cases rt req)
    as [[code [msg [t [E [Hnf Hc]]]]]
       | [[t [u [h' [p' [e [E [Hnf Hr]]]]]]]
         | [t [u [h' [p' [r [E [Hnf Hr]]]]]]]]];
    rewrite E in *; cbn in H200.
  - exfalso. subst code. destruct Hc as [Hc | [Hc | Hc]]; discriminate.
  - discriminate.
  - set (s := {| st_status := None; st_headers := [];
                 st_trace := t ++ [EvFetch u h' p'] |}) in *.
    assert (pristine s) as Hp by (split; reflexivity).
    destruct (ok r) eqn:Hok.
    2:{ rewrite (finish_not_ok rt req r s Hok Hp) in H200. discriminate. }
    exists t, u, h', p', r.
    split; [now rewrite finish_trace |].
    split; [exact Hnf |]. split; [exact Hr |]. split; [exact Hok |]. split.
    + intros Hm. now rewrite (finish_openai rt req r s Hok Hm Hp).
    + intros Hm. destruct (json r) as [data |] eqn:Hj.
      2:{ rewrite (finish_unreadable rt req r s Hok Hm (or_introl Hj) Hp)
            in H200. discriminate. }
      destruct (get data "audioContent") as [a |] eqn:Hg.
      2:{ rewrite (finish_no_field rt req r data s Hok Hm Hj Hg Hp) in H200.
          discriminate. }
      destruct (truthy a) eqn:Ha.
      2:{ rewrite (finish_falsy rt req r data a s Hok Hm Hj Hg Ha Hp) in H200.
          discriminate. }
      now exists data, a.
Qed.

Lemma audio_comes_from_ok_provider_witness :
  exists asked url h p response,
    calls_of (Demo.answering (Demo.provider_raw [x52; x49]))
      (Demo.say (Some "halo") (Some "openai")) = asked ++ [EvFetch url h p]
    /\ fetch (Demo.answering (Demo.provider_raw [x52; x49])) url h p
       = FetchResolved response
    /\ ok response = true.
Proof.
  destruct (audio_comes_from_ok_provider
              (Demo.answering (Demo.provider_raw [x52; x49]))
              (Demo.say (Some "halo") (Some "openai")) eq_refl)
    as [asked [url [h [p [response [Hc [_ [Hf [Hok _]]]]]]]]].
  exists asked, url, h, p, response. auto.
Defined.

(** X17: text put before or after a message never hides a quota
    condition: a message that is classified as quota stays classified
    inside any longer message. *)
Theorem quota_check_survives_wrapping (m before after : string) :
  quota_check m = true -> quota_check (before ++ m ++ after) = true.
Proof.
  rewrite !quota_check_occurs.
  intros [H | [H | [H | H]]];
    apply (occurs_in_wrapped _ _ before after) in H; auto.
Qed.

Lemma quota_check_survives_wrapping_witness :
  quota_check ("7 RESOURCE_EXHAUSTED: " ++ "Quota exceeded" ++ " (retry later)")
  = true.
Proof.
  apply (quota_check_survives_wrapping "Quota exceeded"
           "7 RESOURCE_EXHAUSTED: " " (retry later)").
  reflexivity.
Defined.

(** X18: the second check of the response status, inside the [openai]
    branch (lines 180-190), never runs: for a response that is not [ok]
    the first check has already thrown, with its four needles and its
    fallback message, and for an [ok] response the branch goes straight to
    the audio. *)
Theorem inner_openai_check_never_runs (rt : Runtime) (audioEncoding : Value)
    (response : ProviderResponse) (s : St) :
  answer rt (VStr "openai") audioEncoding response s
  = if ok response
    then reply_audio (content_type_of audioEncoding) (bytes response) s
    else reject_not_ok rt response s.
Proof.
  unfold answer, bind. destruct (ok response) eqn:Hok; cbn [negb].
  - unfold ret, deliver. cbn [strict_eq_str String.eqb Ascii.eqb Bool.eqb].
    unfold bind. now rewrite Hok.
  - destruct (reject_not_ok_exn rt response s) as [e E]. now rewrite !E.
Qed.

Lemma sent_reply (rt : Runtime) (req : TtsRequest) (t : list Event)
    (o : Outbound) :
  fst (sent rt req t o) = error_response 500 "Internal server error" \/
  fst (sent rt req t o) = error_response 500 "Failed to generate audio" \/
  status (fst (sent rt req t o)) = 200.
Proof.
  unfold sent. destruct (fetch rt _ _ _) as [response | e]; [| now left].
  assert (pristine {| st_status := None; st_headers := [];
                      st_trace := t ++ [call_of o] |}) as Hp
      by (split; reflexivity).
  destruct (ok response) eqn:Hok.
  - destruct (finish_ok rt req response _ Hok Hp) as [E | [E | [data E]]];
      rewrite E; cbn; auto.
  - rewrite (finish_not_ok rt req response _ Hok Hp). now left.
Qed.

(** X19: a reply that is not audio is one of eight fixed pairs of status
    and message; nothing a provider or the identity provider said, and no
    key or token, is ever put in an error reply. *)
Theorem error_replies_are_fixed (rt : Runtime) (req : TtsRequest) :
  status (response_of rt req) <> 200 ->
  exists code msg,
    In (code, msg) fixed_errors
    /\ response_of rt req = error_response code msg.
Proof.
  unfold response_of, fixed_errors. intros Hn.
  assert (forall t o,
             status (fst (sent rt req t o)) <> 200 ->
             exists code msg,
               In (code, msg) fixed_errors
               /\ fst (sent rt req t o) = error_response code msg) as Hsent.
  { intros t o H. destruct (sent_reply rt req t o) as [E | [E | E]].
    - exists 500, "Internal server error". split; [cbn; tauto | exact E].
    - exists 500, "Failed to generate audio". split; [cbn; tauto | exact E].
    - contradiction. }
  unfold fixed_errors in Hsent.
  destruct (truthy (text req)) eqn:Ht.
  2:{ rewrite (serve_no_text rt req Ht).
      exists 400, "Text is required". split; [cbn; tauto | reflexivity]. }
  destruct (mode_cases (default_to (apiMode req) (VStr "standard")))
    as [Hm | [Hm | [Hm | [Hv [Hs Ho]]]]].
  - apply default_vertex in Hm. rewrite (serve_vertex rt req Ht Hm) in *.
    destruct (getAccessToken rt) as [token | e].
    + destruct (truthy_opt token); [now apply Hsent |].
      exists 500, "Failed to get service account access token".
      split; [cbn; tauto | reflexivity].
    + destruct (quota_check (message_of e)).
      * exists 429, "Limit exceeded per project per minute".
        split; [cbn; tauto | reflexivity].
      * exists 500, "Service account authentication failed".
        split; [cbn; tauto | reflexivity].
  - rewrite (serve_standard rt req Ht Hm) in *.
    destruct (truthy_opt (GOOGLE_TTS_API_KEY rt)); [now apply Hsent |].
    exists 500, "TTS API key not configured".
    split; [cbn; tauto | reflexivity].
  - apply default_openai in Hm. rewrite (serve_openai rt req Ht Hm) in *.
    destruct (truthy_opt (OPENAI_API_KEY rt)); [now apply Hsent |].
    exists 500, "OpenAI API key not configured".
    split; [cbn; tauto | reflexivity].
  - rewrite (serve_other rt req Ht Hv Hs Ho).
    exists 500, "Internal server error". split; [cbn; tauto | reflexivity].
Qed.

Lemma error_replies_are_fixed_witness :
  exists code msg,
    In (code, msg) fixed_errors
    /\ response_of
         (Demo.unconfigured (ThrowError "invalid_grant: key g-key revoked"))
         (Demo.say (Some "halo") (Some "vertex"))
       = error_response code msg.
Proof.
  apply (error_replies_are_fixed
           (Demo.unconfigured (ThrowError "invalid_grant: key g-key revoked"))
           (Demo.say (Some "halo") (Some "vertex"))).
  cbv. discriminate.
Defined.
